(** * noaa_sdk.noaa: request building and response normalisation

    A shallow embedding of the class [NOAA] of [noaa_sdk/noaa.py] and the
    properties of its forecast, observation and alert operations.

    - Parsed JSON documents and Python arguments are values of [value];
      a Python [dict] is an association list, because the insertion order of
      [**params] is what [urlencode] sees.
    - Python exceptions are values of [exn]; fallible pure code returns
      [result A = exn + A].
    - Code that calls [make_get_request] runs in the monad [M], which threads
      the log of the requests issued so far and keeps it when an exception is
      raised; the transport answers from the log and the request.
    - A generator is modelled by what a complete enumeration observes: the
      records yielded in order, the exception (if any) that ends the
      enumeration, and the request log.
    - Texts are sequences of one-byte characters; [assert] statements are
      executed; coordinates are floats and timestamps are texts, as the
      docstrings type them. *)

From Stdlib Require Import ZArith String Ascii List Bool Lia DecimalString.
From Stdlib Require Import Floats.PrimFloat.
Import ListNotations.

Set Warnings "-register-all,-inexact-float".

Local Open Scope list_scope.
Local Open Scope string_scope.

(** ** Python values *)

(** JSON documents as [json.loads] builds them, and the Python arguments the
    operations receive.  A Python float is an IEEE binary64 number. *)
Inductive value : Type :=
| VNone
| VBool (b : bool)
| VInt (z : Z)
| VFloat (f : float)
| VStr (s : string)
| VList (items : list value)
| VDict (entries : list (string * value)).

Definition dict : Type := list (string * value).

(** Exceptions.  The source raises plain [Exception(...)] for every error of
    its own; the other constructors are the built-in errors of the operations
    it applies to documents.  [ExternalError] stands for whatever a
    collaborator (transport, geocoder, timestamp parser) raises. *)
Inductive exn : Type :=
| Exception (arg : value)
| InvalidZipCodeError (msg : string)
| KeyError (key : string)
| TypeError
| AttributeError
| AssertionError
| ExternalError (name : string).

Definition result (A : Type) : Type := (exn + A)%type.

Definition bindR {A B : Type} (r : result A) (k : A -> result B) : result B :=
  match r with
  | inl e => inl e
  | inr a => k a
  end.

Notation "'let?' x ':=' r 'in' k" := (bindR r (fun x => k))
  (at level 10, x pattern, r at level 100, k at level 200).

(** Python's short-circuit [a and b] and [a or b] on fallible conditions. *)
Definition andR (a : result bool) (b : result bool) : result bool :=
  let? x := a in if x then b else inr false.

Definition orR (a : result bool) (b : result bool) : result bool :=
  let? x := a in if x then inr true else b.

Definition notR (a : result bool) : result bool :=
  let? x := a in inr (negb x).

(** ** Dictionaries *)

Fixpoint dict_get (k : string) (d : dict) : option value :=
  match d with
  | [] => None
  | (k', v) :: d' => if String.eqb k k' then Some v else dict_get k d'
  end.

(** [k in d] *)
Definition dict_in (k : string) (d : dict) : bool :=
  match dict_get k d with
  | Some _ => true
  | None => false
  end.

(** [d[k] = v]: an existing key keeps its position, a new key goes last. *)
Fixpoint dict_set (k : string) (v : value) (d : dict) : dict :=
  match d with
  | [] => [(k, v)]
  | (k', v') :: d' =>
      if String.eqb k k' then (k', v) :: d' else (k', v') :: dict_set k v d'
  end.

(** ** Built-in operations on values *)

(** [v == s] for a string literal [s]. *)
Definition py_eq_str (v : value) (s : string) : bool :=
  match v with
  | VStr t => String.eqb t s
  | _ => false
  end.

(** [v == 503]: an int or a float of that value ([True == 503] is false). *)
Definition py_eq_503 (v : value) : bool :=
  match v with
  | VInt z => (z =? 503)%Z
  | VFloat f => PrimFloat.eqb f 503%float
  | _ => false
  end.

(** Truth value of an object, as [if x:] and [not x] test it. *)
Definition py_truthy (v : value) : bool :=
  match v with
  | VNone => false
  | VBool b => b
  | VInt z => negb (z =? 0)%Z
  | VFloat f => negb (PrimFloat.eqb f 0%float)
  | VStr s => negb (String.eqb s "")
  | VList items => match items with [] => false | _ => true end
  | VDict entries => match entries with [] => false | _ => true end
  end.

(** [key in container] for a string [key]: a key of a dict, an element of a
    list, a substring of a string; [TypeError] on anything else. *)
Definition py_in (key : string) (container : value) : result bool :=
  match container with
  | VDict d => inr (dict_in key d)
  | VList items => inr (existsb (fun x => py_eq_str x key) items)
  | VStr s => inr (match index 0 key s with Some _ => true | None => false end)
  | _ => inl TypeError
  end.

(** [v[key]] for a string [key]: only a dict can be indexed by a string. *)
Definition py_getitem (v : value) (key : string) : result value :=
  match v with
  | VDict d =>
      match dict_get key d with
      | Some x => inr x
      | None => inl (KeyError key)
      end
  | _ => inl TypeError
  end.

(** [v.get(key)]: only a dict has the method. *)
Definition py_get (v : value) (key : string) : result value :=
  match v with
  | VDict d =>
      match dict_get key d with
      | Some x => inr x
      | None => inr VNone
      end
  | _ => inl AttributeError
  end.

Fixpoint chars (s : string) : list value :=
  match s with
  | EmptyString => []
  | String c s' => VStr (String c EmptyString) :: chars s'
  end.

(** The items a [for] loop takes from [v]. *)
Definition py_iter (v : value) : result (list value) :=
  match v with
  | VList items => inr items
  | VDict d => inr (map (fun kv => VStr (fst kv)) d)
  | VStr s => inr (chars s)
  | _ => inl TypeError
  end.

(** [s.split(sep)] for a one-character separator. *)
Fixpoint split (sep : ascii) (s : string) : list string :=
  match s with
  | EmptyString => [EmptyString]
  | String c s' =>
      if Ascii.eqb c sep then EmptyString :: split sep s'
      else match split sep s' with
           | h :: t => String c h :: t
           | [] => [String c EmptyString]
           end
  end.

(** [station.split('/')[-1]] *)
Definition split_last (station : value) : result string :=
  match station with
  | VStr s => inr (last (split "/"%char s) EmptyString)
  | _ => inl AttributeError
  end.

(** [s.replace(a, b)] for one-character [a] and [b]. *)
Fixpoint replace (a b : ascii) (s : string) : string :=
  match s with
  | EmptyString => EmptyString
  | String c s' => String (if Ascii.eqb c a then b else c) (replace a b s')
  end.

(** [s] between double quotes, as the messages of [get_forecasts] write the
    name of a missing attribute. *)
Definition quoted (s : string) : string :=
  String (ascii_of_nat 34) s ++ String (ascii_of_nat 34) EmptyString.

(** Decimal text of an int, as [str] and [format] print it. *)
Definition int_str (z : Z) : string := NilZero.string_of_int (Z.to_int z).

(** ** Collaborators *)

(** Built-ins of the Python runtime and of [urllib] that the source calls and
    that are taken as given: [round(x, n)] on a float, the text [format] gives
    a float, a list or a dict, and [urlencode]. *)
Class Builtins : Type := {
  round_ndigits : float -> Z -> float;
  float_str : float -> string;
  container_str : value -> string;
  urlencode : dict -> string
}.

Definition request : Type := (value * string)%type.
Definition log : Type := list request.

(** The base class [UTIL] ([noaa_sdk/util.py]), of which [NOAA] uses two
    methods.  [transport l r] is what [make_get_request] returns (or raises)
    for the request [r] after the requests [l]; [parse_param_timestamp s]
    accepts the timestamp text [s] or raises.  The method matches its
    argument against text formats, so that it accepts no value that is not
    a text: [parse_param_refuses v] is the exception it raises for such a
    value [v]. *)
Class UTIL : Type := {
  transport : log -> request -> result value;
  parse_param_timestamp : string -> result unit;
  parse_param_refuses : value -> exn
}.

(** The two geocoders: [uszipcode.SearchEngine.by_zipcode], whose result has
    optional [lat] and [lng], and [pgeocode.Nominatim(country).query_postal_code],
    whose result has float [latitude] and [longitude] (NaN when unknown). *)
Class Geocoders : Type := {
  zipcode : Type;
  by_zipcode : string -> result zipcode;
  zip_lat : zipcode -> option float;
  zip_lng : zipcode -> option float;
  postal : Type;
  query_postal_code : string -> string -> result postal;
  latitude : postal -> float;
  longitude : postal -> float
}.

(** ** The request monad *)

Definition M (A : Type) : Type := log -> result A * log.

Definition ret {A : Type} (a : A) : M A := fun l => (inr a, l).

Definition raise {A : Type} (e : exn) : M A := fun l => (inl e, l).

Definition bind {A B : Type} (m : M A) (k : A -> M B) : M B :=
  fun l =>
    match m l with
    | (inl e, l') => (inl e, l')
    | (inr a, l') => k a l'
    end.

Definition lift {A : Type} (r : result A) : M A := fun l => (r, l).

Notation "x <- m ;; k" := (bind m (fun x => k))
  (at level 61, m at next level, right associativity).

(** What a complete enumeration of a generator observes. *)
Record stream : Type := Stream {
  yielded : list value;
  raised : option exn
}.

Definition G : Type := log -> stream * log.

(** ** The class [NOAA] *)

Section NOAA.

Context {B : Builtins} {U : UTIL} {Geo : Geocoders}.

Definition DEFAULT_END_POINT : string := "api.weather.gov".

(** The text ['{}'.format(v)] puts in place of the braces. *)
Definition py_str (v : value) : string :=
  match v with
  | VNone => "None"
  | VBool true => "True"
  | VBool false => "False"
  | VInt z => int_str z
  | VFloat f => float_str f
  | VStr s => s
  | VList _ | VDict _ => container_str v
  end.

(** [self.make_get_request(uri, end_point=end_point)]: the request is issued
    (and logged) whether the transport returns a document or raises. *)
Definition make_get_request (uri : value) (end_point : string) : M value :=
  fun l => (transport l (uri, end_point), (l ++ [(uri, end_point)])%list).

(** The lookup-result object returned with the coordinate on request. *)
Inductive geo_result : Type :=
| ZipResult (z : zipcode)
| PostalResult (p : postal).

Definition get_lat_lon_by_postalcode_country
    (postal_code country : string) (return_result_object : bool)
  : result (float * float * option geo_result) :=
  if String.eqb country "US" then
    let? zipcode := by_zipcode postal_code in
    match zip_lat zipcode, zip_lng zipcode with
    | Some lat, Some lng =>
        inr (lat, lng,
             if return_result_object then Some (ZipResult zipcode) else None)
    | _, _ => inl (InvalidZipCodeError "Invalid ZIP Code")
    end
  else
    let? query_results := query_postal_code country postal_code in
    if PrimFloat.is_nan (latitude query_results)
       || PrimFloat.is_nan (longitude query_results)
    then inl (InvalidZipCodeError "Invalid ZIP Code")
    else inr (latitude query_results, longitude query_results,
              if return_result_object
              then Some (PostalResult query_results) else None).

(** [if type(data_type) is not list: data_type = [data_type]] *)
Definition as_list (data_type : value) : list value :=
  match data_type with
  | VList items => items
  | _ => [data_type]
  end.

(** [dtype in ["hourly", "grid", None]] *)
Definition supported (dtype : value) : bool :=
  py_eq_str dtype "hourly" || py_eq_str dtype "grid"
  || match dtype with VNone => true | _ => false end.

(** The link of the points document that the loop body of [points_forecast]
    selects for one data type: ['forecast'] is read first in every case. *)
Definition forecast_uri (points : value) (dtype : value) : result value :=
  let? properties := py_getitem points "properties" in
  let? uri := py_getitem properties "forecast" in
  if py_eq_str dtype "hourly" then
    let? properties := py_getitem points "properties" in
    py_getitem properties "forecastHourly"
  else if py_eq_str dtype "grid" then
    let? properties := py_getitem points "properties" in
    py_getitem properties "forecastGridData"
  else inr uri.

(** The second loop of [points_forecast]: one fetch per data type, in order. *)
Fixpoint fetch_forecasts (points : value) (data_type : list value)
  : M (list value) :=
  match data_type with
  | [] => ret []
  | dtype :: rest =>
      uri <- lift (forecast_uri points dtype) ;;
      response <- make_get_request uri DEFAULT_END_POINT ;;
      responses <- fetch_forecasts points rest ;;
      ret (response :: responses)
  end.

Definition points_forecast (lat long : float) (data_type : value)
  : M (list value) :=
  let data_type := as_list data_type in
  if negb (forallb supported data_type) then raise AssertionError
  else
    points <- make_get_request
                (VStr ("/points/" ++ float_str lat ++ "," ++ float_str long))
                DEFAULT_END_POINT ;;
    fetch_forecasts points data_type.

(** The [if]/[elif] chain of [get_forecasts] on one document. *)
Definition validate_forecast (dtype res : value) : result unit :=
  let? upstream_error :=
    andR (py_in "status" res)
         (andR (let? status := py_getitem res "status" in
                inr (py_eq_503 status))
               (py_in "detail" res)) in
  if upstream_error then
    let? status := py_getitem res "status" in
    let? detail := py_getitem res "detail" in
    inl (Exception (VStr ("Status: " ++ py_str status
                          ++ ", NOAA API Error Response: " ++ py_str detail)))
  else
    let? no_properties := notR (py_in "properties" res) in
    if no_properties then
      inl (Exception (VStr (quoted "properties" ++
        " attribute not found. Possible response json changes")))
    else
      let? no_periods :=
        andR (py_in "properties" res)
             (andR (let? properties := py_getitem res "properties" in
                    notR (py_in "periods" properties))
                   (inr (negb (py_eq_str dtype "grid")))) in
      if no_periods then
        inl (Exception (VStr (quoted "periods" ++
          " attribute not found. Possible response json changes")))
      else inr tt.

(** What the loop body appends to [to_return]. *)
Definition project_forecast (dtype res : value) : result value :=
  if py_eq_str dtype "grid" then py_getitem res "properties"
  else
    let? properties := py_getitem res "properties" in
    py_getitem properties "periods".

(** [for dtype, res in zip(data_type, results): ...] *)
Fixpoint forecast_results (pairs : list (value * value))
  : result (list value) :=
  match pairs with
  | [] => inr []
  | (dtype, res) :: rest =>
      let? _ := validate_forecast dtype res in
      let? item := project_forecast dtype res in
      let? to_return := forecast_results rest in
      inr (item :: to_return)
  end.

(** The result is [to_return] alone, or paired with the lookup-result object
    when [return_result_object] is set. *)
Definition get_forecasts
    (postal_code country : string) (data_type : value)
    (return_result_object : bool)
  : M (list value * option geo_result) :=
  postalcode_search_result <-
    lift (get_lat_lon_by_postalcode_country
            postal_code country return_result_object) ;;
  let '(lat, lon, result_object) := postalcode_search_result in
  let data_type := as_list data_type in
  results <- points_forecast lat lon (VList data_type) ;;
  to_return <- lift (forecast_results (combine data_type results)) ;;
  ret (to_return, result_object).

Definition points (point : value) (stations : value) : M value :=
  if py_truthy stations then
    make_get_request (VStr ("/points/" ++ py_str point ++ "/stations"))
                     DEFAULT_END_POINT
  else
    make_get_request (VStr ("/points/" ++ py_str point)) DEFAULT_END_POINT.

(** The padding of an accepted timestamp text: the inner [if]/[elif] of the
    ['start'] block (suffix [T00:00:00Z]) and of the ['end'] block (suffix
    [T23:59:59Z]) of [stations_observations]. *)
Definition pad_timestamp (suffix : string) (s : string) : string :=
  if (String.length s <? 19)%nat then substring 0 10 s ++ suffix
  else if (String.length s <? 20)%nat then replace " "%char "T"%char s ++ "Z"
  else s.

(** One [if key in params:] block.  Whatever value the key holds is handed
    to the parser, which raises its own exception on a value that is not a
    text, before anything else is done with the value. *)
Definition normalize_timestamp (key suffix : string) (params : dict)
  : result dict :=
  match dict_get key params with
  | None => inr params
  | Some (VStr s) =>
      let? _ := parse_param_timestamp s in
      inr (dict_set key (VStr (pad_timestamp suffix s)) params)
  | Some v => inl (parse_param_refuses v)
  end.

(** The ['start'] block followed by the ['end'] block. *)
Definition normalize_timestamps (params : dict) : result dict :=
  let? params := normalize_timestamp "start" "T00:00:00Z" params in
  normalize_timestamp "end" "T23:59:59Z" params.

Definition observations_uri (station_id : value) : string :=
  "/stations/" ++ py_str station_id ++ "/observations".

Definition stations_observations (station_id : value) (params : dict)
  : M value :=
  if negb (py_truthy station_id) then
    raise (Exception (VStr "'station_id' is required."))
  else if dict_in "recordId" params && dict_in "current" params then
    raise (Exception (VStr "Cannot have both 'current' and 'recordId'"))
  else
    params <- lift (normalize_timestamps params) ;;
    let request_uri := observations_uri station_id in
    if (0 <? length params)%nat then
      match dict_get "recordId" params with
      | Some recordId =>
          make_get_request (VStr (request_uri ++ "/" ++ py_str recordId))
                           DEFAULT_END_POINT
      | None =>
          if dict_in "current" params then
            make_get_request (VStr (request_uri ++ "/current"))
                             DEFAULT_END_POINT
          else
            let request_uri :=
              if (1 <? length params)%nat
              then request_uri ++ "?" ++ urlencode params
              else request_uri in
            observations <- make_get_request (VStr request_uri)
                                             DEFAULT_END_POINT ;;
            has_features <- lift (py_in "features" observations) ;;
            if negb has_features then raise (Exception observations)
            else lift (py_getitem observations "features")
      end
    else
      make_get_request (VStr (observations_uri station_id)) DEFAULT_END_POINT.

(** [for observation in observations: yield observation.get('properties')] *)
Fixpoint yield_properties (observations : list value) : stream :=
  match observations with
  | [] => Stream [] None
  | observation :: rest =>
      match py_get observation "properties" with
      | inl e => Stream [] (Some e)
      | inr properties =>
          let s := yield_properties rest in
          Stream (properties :: yielded s) (raised s)
      end
  end.

(** The body of the station loop after the bound check. *)
Definition station_observations (params : dict) (station : value) : G :=
  fun l =>
    match split_last station with
    | inl e => (Stream [] (Some e), l)
    | inr station_id =>
        match stations_observations (VStr station_id) params l with
        | (inl e, l') => (Stream [] (Some e), l')
        | (inr response, l') =>
            let observations :=
              match response with
              | VDict _ => py_getitem response "features"
              | _ => inr response
              end in
            match bindR observations py_iter with
            | inl e => (Stream [] (Some e), l')
            | inr items => (yield_properties items, l')
            end
        end
    end.

(** [if num_of_stations > 0 and num_of_stations <= index: break] *)
Definition bound_reached (num_of_stations : Z) (index : nat) : bool :=
  (0 <? num_of_stations)%Z && (num_of_stations <=? Z.of_nat index)%Z.

(** [for index, station in enumerate(stations): ...] from [index] on. *)
Fixpoint stations_loop (params : dict) (num_of_stations : Z) (index : nat)
    (stations : list value) : G :=
  fun l =>
    match stations with
    | [] => (Stream [] None, l)
    | station :: rest =>
        if bound_reached num_of_stations index then (Stream [] None, l)
        else
          let '(s, l1) := station_observations params station l in
          match raised s with
          | Some e => (s, l1)
          | None =>
              let '(s', l2) :=
                stations_loop params num_of_stations (S index) rest l1 in
              (Stream (yielded s ++ yielded s')%list (raised s'), l2)
          end
    end.

(** The keyword arguments built from [start] and [end]. *)
Definition stations_observations_params (start end_ : value) : dict :=
  let params := if py_truthy start then [("start", start)] else [] in
  if py_truthy end_ then dict_set "end" end_ params else params.

(** The point text ['{},{}'.format(round(lat, 4), round(lon, 4))]. *)
Definition rounded_point (lat lon : float) : string :=
  float_str (round_ndigits lat 4) ++ "," ++ float_str (round_ndigits lon 4).

(** The part of [get_observations_by_lat_lon] before the station loop: the
    points document, its check, and the station list. *)
Definition observation_stations (lat lon : float) : M (list value) :=
  points_res <- points (VStr (rounded_point lat lon)) (VBool false) ;;
  missing <- lift (orR (notR (py_in "properties" points_res))
                       (let? properties :=
                          py_getitem points_res "properties" in
                        notR (py_in "observationStations" properties))) ;;
  if missing then
    raise (Exception (VStr "Error: No Observation Stations found."))
  else
    uri <- lift (let? properties := py_getitem points_res "properties" in
                 py_getitem properties "observationStations") ;;
    response <- make_get_request uri DEFAULT_END_POINT ;;
    stations <- lift (py_getitem response "observationStations") ;;
    lift (py_iter stations).

Definition get_observations_by_lat_lon
    (lat lon : float) (start end_ : value) (num_of_stations : Z) : G :=
  fun l =>
    let params := stations_observations_params start end_ in
    match observation_stations lat lon l with
    | (inl e, l') => (Stream [] (Some e), l')
    | (inr stations, l') => stations_loop params num_of_stations 0 stations l'
    end.

(** [get_observations] resolves the coordinate when it is called and returns
    the generator. *)
Definition get_observations
    (postalcode country : string) (start end_ : value) (num_of_stations : Z)
  : result G :=
  let? found := get_lat_lon_by_postalcode_country postalcode country false in
  let '(lat, lon, _) := found in
  inr (get_observations_by_lat_lon lat lon start end_ num_of_stations).

(** Deprecated alias of [get_observations]. *)
Definition get_observations_by_postalcode_country
    (postalcode country : string) (start end_ : value) (num_of_stations : Z)
  : result G :=
  get_observations postalcode country start end_ num_of_stations.

Definition active_alerts (count : value) (params : dict) : M value :=
  if py_truthy count then
    make_get_request (VStr "/alerts/count") DEFAULT_END_POINT
  else
    match dict_get "zone_id" params with
    | Some zone_id =>
        make_get_request (VStr ("/alerts/active/zone/" ++ py_str zone_id))
                         DEFAULT_END_POINT
    | None =>
        match dict_get "area" params with
        | Some area =>
            make_get_request (VStr ("/alerts/active/area/" ++ py_str area))
                             DEFAULT_END_POINT
        | None =>
            match dict_get "region" params with
            | Some region =>
                make_get_request
                  (VStr ("/alerts/active/region/" ++ py_str region))
                  DEFAULT_END_POINT
            | None =>
                make_get_request (VStr "/alerts/active") DEFAULT_END_POINT
            end
        end
    end.

End NOAA.

(** ** The remaining endpoints of [NOAA] *)

(** [del d[k]]: the key is gone from the mapping. *)
Fixpoint dict_del (k : string) (d : dict) : dict :=
  match d with
  | [] => []
  | (k', v) :: d' =>
      if String.eqb k k' then dict_del k d' else (k', v) :: dict_del k d'
  end.

Section Endpoints.

Context {B : Builtins} {U : UTIL}.

(** [stations] with its keyword parameters: a ['station_id'] is sent under
    the name ['id']. *)
Definition stations (params : dict) : M value :=
  if (0 <? length params)%nat then
    let params :=
      match dict_get "station_id" params with
      | Some station_id =>
          dict_del "station_id" (dict_set "id" station_id params)
      | None => params
      end in
    make_get_request (VStr ("/stations?" ++ urlencode params))
                     DEFAULT_END_POINT
  else
    make_get_request (VStr "/stations") DEFAULT_END_POINT.

Definition products (id : value) : M value :=
  make_get_request (VStr ("/products/" ++ py_str id)) DEFAULT_END_POINT.

Definition products_types (params : dict) : M value :=
  if dict_in "type_id" params && negb (dict_in "locations" params) then
    match dict_get "type_id" params with
    | Some type_id =>
        make_get_request (VStr ("/products/types/" ++ py_str type_id))
                         DEFAULT_END_POINT
    | None => raise (KeyError "type_id")
    end
  else if dict_in "locations" params then
    if negb (dict_in "type_id" params) then
      raise (Exception (VStr "Error: Missing type id (type_id=None)"))
    else
      match dict_get "type_id" params, dict_get "location_id" params with
      | Some type_id, Some location_id =>
          make_get_request
            (VStr ("/products/types/" ++ py_str type_id ++ "/locations/"
                   ++ py_str location_id))
            DEFAULT_END_POINT
      | Some type_id, None =>
          make_get_request
            (VStr ("/products/types/" ++ py_str type_id ++ "/locations"))
            DEFAULT_END_POINT
      | None, _ => raise (KeyError "type_id")
      end
  else
    make_get_request (VStr "/products/types") DEFAULT_END_POINT.

Definition products_locations (params : dict) : M value :=
  match dict_get "location_id" params with
  | Some location_id =>
      make_get_request
        (VStr ("/products/locations/" ++ py_str location_id ++ "/types"))
        DEFAULT_END_POINT
  | None =>
      make_get_request (VStr "/products/locations") DEFAULT_END_POINT
  end.

Definition offices (office_id : value) : M value :=
  make_get_request (VStr ("/offices/" ++ py_str office_id)) DEFAULT_END_POINT.

Definition zones (type zone_id forecast : value) : M value :=
  if py_truthy forecast then
    make_get_request
      (VStr ("/zones/" ++ py_str type ++ "/" ++ py_str zone_id ++ "/forecast"))
      DEFAULT_END_POINT
  else
    make_get_request
      (VStr ("/zones/" ++ py_str type ++ "/" ++ py_str zone_id))
      DEFAULT_END_POINT.

Definition alerts (params : dict) : M value :=
  match dict_get "alert_id" params with
  | Some alert_id =>
      make_get_request (VStr ("/alerts/" ++ py_str alert_id)) DEFAULT_END_POINT
  | None =>
      make_get_request (VStr ("/alerts?" ++ urlencode params))
                       DEFAULT_END_POINT
  end.

End Endpoints.

(** ** Vocabulary of the statements *)

(** A forecast document of the data model's shape: an object whose
    [properties], when present, is an object. *)
Definition forecast_document (res : value) : bool :=
  match res with
  | VDict d =>
      match dict_get "properties" d with
      | Some (VDict _) | None => true
      | Some _ => false
      end
  | _ => false
  end.

(** The stations the loop gets to from position [index] on: all of them
    unless [num_of_stations] is positive. *)
Definition remaining {A : Type} (num_of_stations : Z) (index : nat)
    (stations : list A) : list A :=
  if (0 <? num_of_stations)%Z
  then firstn (Z.to_nat num_of_stations - index) stations
  else stations.

(** The identifier of a station: the last segment of its address. *)
Definition station_id_of (s : string) : string :=
  last (split "/"%char s) EmptyString.

(** The records of a list of features: the ['properties'] of each, [None]
    where a feature has none. *)
Definition records (features : list dict) : list value :=
  map (fun d => match dict_get "properties" d with
                | Some p => p
                | None => VNone
                end) features.

(** The bound as the sentence of C2 states it: a non-negative
    [num_of_stations] stops the stream after that many stations, a negative
    one is no bound. *)
Definition stated_bound {A : Type} (num_of_stations : Z)
    (stations : list A) : list A :=
  if (num_of_stations <? 0)%Z then stations
  else firstn (Z.to_nat num_of_stations) stations.

(** [l'] continues the log [l]. *)
Definition extends (l l' : log) : Prop := exists rest, l' = (l ++ rest)%list.

Section Vocabulary.

Context {B : Builtins} {U : UTIL}.

(** The request [stations_observations] issues in the query mode (neither
    ['recordId'] nor ['current']): the query string is added only when the
    mapping has more than one key. *)
Definition query_uri (station_id : value) (params : dict) : string :=
  if (1 <? length params)%nat
  then observations_uri station_id ++ "?" ++ urlencode params
  else observations_uri station_id.

(** The outcome of the query mode on the transport's answer. *)
Definition features_of (answer : result value) : result value :=
  let? observations := answer in
  let? has_features := py_in "features" observations in
  if negb has_features then inl (Exception observations)
  else py_getitem observations "features".

(** The document gets through the [if]/[elif] chain of [get_forecasts]. *)
Definition passes_validation (dtype res : value) : bool :=
  match validate_forecast dtype res with
  | inr _ => true
  | inl _ => false
  end.

(** [item] is what the data model assigns to [dtype] in [res]: the
    [properties] object for the grid type, its [periods] for the others. *)
Definition projection_of (dtype res item : value) : Prop :=
  exists d p,
    res = VDict d /\ dict_get "properties" d = Some (VDict p)
    /\ if py_eq_str dtype "grid" then item = VDict p
       else dict_get "periods" p = Some item.

Definition valid_pairs (pairs : list (value * value)) : Prop :=
  forall dtype res,
    In (dtype, res) pairs ->
    forecast_document res = true /\ passes_validation dtype res = true.

Definition observation_request (params : dict) (s : string) : request :=
  (VStr (query_uri (VStr (station_id_of s)) params), DEFAULT_END_POINT).

(** The station at address [s] has an identifier, and the transport answers
    its observation query, whatever was requested before, with an object
    whose ['features'] is the list of objects [features]. *)
Definition station_answers (params : dict) (s : string)
    (features : list dict) : Prop :=
  station_id_of s <> EmptyString
  /\ exists d,
       dict_get "features" d = Some (VList (map VDict features))
       /\ forall l, transport l (observation_request params s)
                    = inr (VDict d).

(** The documents before the loop: the points document links to the station
    list, and the station list holds the station addresses [uris]. *)
Definition stations_listed (lat lon : float) (l : log) (link : value)
    (uris : list string) : Prop :=
  exists pd props sd,
    transport l (VStr ("/points/" ++ rounded_point lat lon),
                 DEFAULT_END_POINT) = inr (VDict pd)
    /\ dict_get "properties" pd = Some (VDict props)
    /\ dict_get "observationStations" props = Some link
    /\ transport (l ++ [(VStr ("/points/" ++ rounded_point lat lon),
                         DEFAULT_END_POINT)])%list
                 (link, DEFAULT_END_POINT) = inr (VDict sd)
    /\ dict_get "observationStations" sd = Some (VList (map VStr uris)).

End Vocabulary.

(** ** A sample world

    One instance of each collaborator, on which the statements below are
    evaluated: a handful of coordinates with the texts Python prints for
    them, a transport that answers from a fixed table of documents, and a
    geocoder that knows three ZIP codes. *)

Module Sample.

Definition float_table : list (float * string) :=
  [ (40.712776%float, "40.712776"); ((-74.005974)%float, "-74.005974");
    (40.7128%float, "40.7128"); ((-74.006)%float, "-74.006");
    (40.75%float, "40.75"); ((-73.99)%float, "-73.99");
    (41.88%float, "41.88"); ((-87.62)%float, "-87.62");
    (25.77%float, "25.77"); ((-80.19)%float, "-80.19") ].

Fixpoint float_text (table : list (float * string)) (f : float) : string :=
  match table with
  | [] => "nan"
  | (g, s) :: table' => if PrimFloat.eqb f g then s else float_text table' f
  end.

(** [round(x, 4)] on the coordinates of the table: two of them have more
    than four decimals. *)
Definition round4 (f : float) (ndigits : Z) : float :=
  if PrimFloat.eqb f 40.712776%float then 40.7128%float
  else if PrimFloat.eqb f (-74.005974)%float then (-74.006)%float
  else f.

Definition unreserved (c : ascii) : bool :=
  let n := nat_of_ascii c in
  ((48 <=? n) && (n <=? 57) || (65 <=? n) && (n <=? 90)
   || (97 <=? n) && (n <=? 122)
   || (n =? 95) || (n =? 46) || (n =? 45) || (n =? 126))%nat.

Definition hex_digit (n : nat) : ascii :=
  nth n ["0"; "1"; "2"; "3"; "4"; "5"; "6"; "7"; "8"; "9";
         "A"; "B"; "C"; "D"; "E"; "F"]%char "0"%char.

(** [urllib.parse.quote_plus] on ASCII text. *)
Fixpoint quote_plus (s : string) : string :=
  match s with
  | EmptyString => EmptyString
  | String c s' =>
      (if unreserved c then String c EmptyString
       else if Ascii.eqb c " "%char then "+"
       else let n := nat_of_ascii c in
            String "%"%char
              (String (hex_digit (n / 16))
                 (String (hex_digit (n mod 16)) EmptyString)))
      ++ quote_plus s'
  end.

Definition query_text (v : value) : string :=
  match v with
  | VStr s => s
  | VInt z => int_str z
  | _ => EmptyString
  end.

Definition urlencode_pairs (params : dict) : string :=
  String.concat "&"
    (map (fun kv => quote_plus (fst kv) ++ "=" ++ quote_plus (query_text (snd kv)))
         params).

Definition builtins : Builtins := {|
  round_ndigits := round4;
  float_str := float_text float_table;
  container_str := fun _ => "[...]";
  urlencode := urlencode_pairs
|}.

Definition digit (c : ascii) : bool :=
  let n := nat_of_ascii c in ((48 <=? n) && (n <=? 57))%nat.

(** [s] has the shape [pattern], in which [9] stands for any digit. *)
Fixpoint shaped (pattern s : string) : bool :=
  match pattern, s with
  | EmptyString, EmptyString => true
  | String p pattern', String c s' =>
      (if Ascii.eqb p "9"%char then digit c else Ascii.eqb p c)
      && shaped pattern' s'
  | _, _ => false
  end.

(** Modelled from the spec: [parse_param_timestamp] of [noaa_sdk/util.py],
    which is not among the sources.  A text is accepted when it has one of
    the three formats: date-time with seconds and [Z], date only, date and
    time separated by a space. *)
Definition accepts_timestamp (s : string) : result unit :=
  if shaped "9999-99-99T99:99:99Z" s || shaped "9999-99-99" s
     || shaped "9999-99-99 99:99:99" s
  then inr tt
  else inl (ExternalError "InvalidTimestampError").

Definition gridpoint : string := "https://api.weather.gov/gridpoints/OKX/33,35".
Definition chicago : string := "https://api.weather.gov/gridpoints/LOT/76,73".

Definition new_york_points : value :=
  VDict [("properties",
          VDict [("forecast", VStr (gridpoint ++ "/forecast"));
                 ("forecastHourly", VStr (gridpoint ++ "/forecast/hourly"));
                 ("forecastGridData", VStr gridpoint);
                 ("observationStations", VStr (gridpoint ++ "/stations"))])].

Definition chicago_points : value :=
  VDict [("properties",
          VDict [("forecast", VStr (chicago ++ "/forecast"));
                 ("forecastHourly", VStr (chicago ++ "/forecast/hourly"));
                 ("forecastGridData", VStr chicago)])].

Definition unavailable : dict :=
  [("status", VInt 503); ("detail", VStr "Service Unavailable")].

Definition station_uris : list string :=
  ["https://api.weather.gov/stations/KNYC";
   "https://api.weather.gov/stations/KLGA"].

Definition knyc_features : list dict :=
  [[("id", VStr "KNYC/1"); ("properties", VDict [("temperature", VInt 21)])];
   [("id", VStr "KNYC/2"); ("properties", VDict [("temperature", VInt 20)])]].

Definition klga_features : list dict :=
  [[("id", VStr "KLGA/1"); ("properties", VDict [("temperature", VInt 22)])]].

Definition day_query : string :=
  "?start=2020-01-01T00%3A00%3A00Z&end=2020-01-01T23%3A59%3A59Z".

Definition documents : dict :=
  [ ("/points/40.7128,-74.006", new_york_points);
    ("/points/40.75,-73.99", new_york_points);
    (gridpoint ++ "/stations",
     VDict [("observationStations", VList (map VStr station_uris))]);
    ("/stations/KNYC/observations",
     VDict [("features", VList (map VDict knyc_features))]);
    ("/stations/KLGA/observations",
     VDict [("features", VList (map VDict klga_features))]);
    ("/stations/KNYC/observations" ++ day_query,
     VDict [("features", VList (map VDict knyc_features))]);
    ("/stations/KLGA/observations" ++ day_query,
     VDict [("features", VList (map VDict klga_features))]);
    ("/stations/KNYC/observations/current",
     VDict [("properties", VDict [("temperature", VInt 21)])]);
    (gridpoint ++ "/forecast",
     VDict [("properties",
             VDict [("periods", VList [VDict [("name", VStr "Tonight")]])])]);
    (gridpoint ++ "/forecast/hourly",
     VDict [("properties",
             VDict [("periods", VList [VDict [("number", VInt 1)]])])]);
    (gridpoint,
     VDict [("properties", VDict [("temperature", VDict [])])]);
    ("/points/41.88,-87.62", chicago_points);
    (chicago ++ "/forecast",
     VDict [("properties", VDict [("periods", VList [])])]);
    (chicago ++ "/forecast/hourly", VDict [("title", VStr "Unexpected")]);
    (chicago, VDict unavailable);
    ("/points/25.77,-80.19", VDict [("title", VStr "Data Unavailable")]) ].

(** The transport answers a text address from the table, whatever was
    requested before, and raises on anything else. *)
Definition answer (l : log) (r : request) : result value :=
  match fst r with
  | VStr uri =>
      match dict_get uri documents with
      | Some doc => inr doc
      | None => inl (ExternalError "Not Found")
      end
  | _ => inl TypeError
  end.

Definition util : UTIL := {|
  transport := answer;
  parse_param_timestamp := accepts_timestamp;
  parse_param_refuses := fun _ => ExternalError "InvalidTimestampError"
|}.

Definition zip_table : list (string * (float * float)) :=
  [ ("10001", (40.75%float, (-73.99)%float));
    ("60601", (41.88%float, (-87.62)%float));
    ("33101", (25.77%float, (-80.19)%float)) ].

Fixpoint zip_lookup (table : list (string * (float * float)))
    (postal_code : string) : option float * option float :=
  match table with
  | [] => (None, None)
  | (code, (lat, lng)) :: table' =>
      if String.eqb postal_code code then (Some lat, Some lng)
      else zip_lookup table' postal_code
  end.

Definition geocoders : Geocoders := {|
  zipcode := option float * option float;
  by_zipcode := fun postal_code => inr (zip_lookup zip_table postal_code);
  zip_lat := fst;
  zip_lng := snd;
  postal := float * float;
  query_postal_code := fun _ _ => inr (PrimFloat.nan, PrimFloat.nan);
  latitude := fst;
  longitude := snd
|}.

(** Inputs and request logs of the statements on the sample world. *)

Definition new_york : float * float := (40.712776%float, (-74.005974)%float).

Definition miami : float * float := (25.77%float, (-80.19)%float).

Definition points_request (point : string) : request :=
  (VStr ("/points/" ++ point), DEFAULT_END_POINT).

Definition stations_request : request :=
  (VStr (Sample.gridpoint ++ "/stations"), DEFAULT_END_POINT).

Definition day_params : dict :=
  [("start", VStr "2020-01-01"); ("end", VStr "2020-01-01")].

Definition day_params' : dict :=
  [("start", VStr "2020-01-01T00:00:00Z");
   ("end", VStr "2020-01-01T23:59:59Z")].

Definition forecast_log : log :=
  [points_request "40.75,-73.99";
   (VStr (Sample.gridpoint ++ "/forecast"), DEFAULT_END_POINT);
   (VStr Sample.gridpoint, DEFAULT_END_POINT);
   (VStr (Sample.gridpoint ++ "/forecast/hourly"), DEFAULT_END_POINT)].

Definition chicago_log (first : string) : log :=
  [points_request "41.88,-87.62";
   (VStr (Sample.chicago ++ first), DEFAULT_END_POINT);
   (VStr Sample.chicago, DEFAULT_END_POINT)].

Definition sample_forecasts : list value :=
  [VDict [("properties",
           VDict [("periods", VList [VDict [("name", VStr "Tonight")]])])];
   VDict [("properties", VDict [("temperature", VDict [])])];
   VDict [("properties",
           VDict [("periods", VList [VDict [("number", VInt 1)]])])]].

End Sample.

(** ** A second sample world

    The sample world with other documents at three of its points: stations
    that fail, answer without features, or list a feature that is no object,
    and a points document without the default forecast link. *)

Module Sample2.

Definition chicago_points : value :=
  VDict [("properties",
          VDict [("forecastGridData", VStr Sample.chicago);
                 ("observationStations",
                  VStr (Sample.chicago ++ "/stations"))])].

Definition chicago_stations : list string :=
  ["https://api.weather.gov/stations/KORD";
   "https://api.weather.gov/stations/KMDW";
   "https://api.weather.gov/stations/KPWK"].

Definition kord_features : list dict :=
  [[("properties", VDict [("temperature", VInt 10)])]].

Definition new_york_stations : list string :=
  ["https://api.weather.gov/stations/KNYC";
   "https://api.weather.gov/stations/KJFK";
   "https://api.weather.gov/stations/KLGA"].

Definition kjfk_answer : dict := [("title", VStr "Unexpected")].

Definition miami_stations : list string :=
  ["https://api.weather.gov/stations/KMIA";
   "https://api.weather.gov/stations/KOPF"].

Definition kmia_features : list dict :=
  [[("properties", VDict [("temperature", VInt 30)])]; [("id", VStr "KMIA/2")]].

Definition kmia_answer : dict :=
  [("features",
    VList (List.app (map VDict kmia_features)
                    [VStr "not an object";
                     VDict [("properties", VInt 1)]]))].

Definition documents : dict :=
  List.app
  [ ("/points/41.88,-87.62", chicago_points);
    (Sample.chicago ++ "/stations",
     VDict [("observationStations", VList (map VStr chicago_stations))]);
    ("/stations/KORD/observations",
     VDict [("features", VList (map VDict kord_features))]);
    ("/points/40.75,-73.99",
     VDict [("properties",
             VDict [("observationStations", VStr "/gridpoints/OKX/stations")])]);
    ("/gridpoints/OKX/stations",
     VDict [("observationStations", VList (map VStr new_york_stations))]);
    ("/stations/KJFK/observations", VDict kjfk_answer);
    ("/stations/KJFK/observations" ++ Sample.day_query, VDict kjfk_answer);
    ("/points/25.77,-80.19",
     VDict [("properties",
             VDict [("observationStations", VStr "/gridpoints/MFL/stations")])]);
    ("/gridpoints/MFL/stations",
     VDict [("observationStations", VList (map VStr miami_stations))]);
    ("/stations/KMIA/observations", VDict kmia_answer) ]
  Sample.documents.

Definition answer (l : log) (r : request) : result value :=
  match fst r with
  | VStr uri =>
      match dict_get uri documents with
      | Some doc => inr doc
      | None => inl (ExternalError "Not Found")
      end
  | _ => inl TypeError
  end.

Definition util : UTIL := {|
  transport := answer;
  parse_param_timestamp := Sample.accepts_timestamp;
  parse_param_refuses := fun _ => ExternalError "InvalidTimestampError"
|}.

End Sample2.

(** ** Vocabulary of the further statements *)

(** The upstream error marker of a forecast document: a ['status'] equal to
    503 together with a ['detail']. *)
Definition upstream_marker (d : dict) : bool :=
  match dict_get "status" d with
  | Some status => py_eq_503 status && dict_in "detail" d
  | None => false
  end.

(** The link a data type selects among the three of a points document. *)
Definition selected_link (forecast hourly grid : value) (dtype : value)
  : value :=
  if py_eq_str dtype "hourly" then hourly
  else if py_eq_str dtype "grid" then grid
  else forecast.

(** The text has no slash. *)
Fixpoint slash_free (s : string) : bool :=
  match s with
  | EmptyString => true
  | String c s' => negb (Ascii.eqb c "/"%char) && slash_free s'
  end.

Section FurtherVocabulary.

Context {B : Builtins} {U : UTIL} {Geo : Geocoders}.

(** The geocoder of the country answers, but has no coordinate for the
    postal code: a missing [lat] or [lng] for the US, a NaN otherwise. *)
Definition no_coordinate (postal_code country : string) : Prop :=
  if String.eqb country "US" then
    exists z, by_zipcode postal_code = inr z
              /\ (zip_lat z = None \/ zip_lng z = None)
  else
    exists q, query_postal_code country postal_code = inr q
              /\ (PrimFloat.is_nan (latitude q) = true
                  \/ PrimFloat.is_nan (longitude q) = true).

(** The operation issues exactly one request, a text path at the default
    end point, and its outcome is the outcome of that request. *)
Definition single_request (m : M value) : Prop :=
  exists path,
    forall l, m l = make_get_request (VStr path) DEFAULT_END_POINT l.

Definition properties_message : value :=
  VStr (quoted "properties"
        ++ " attribute not found. Possible response json changes").

Definition periods_message : value :=
  VStr (quoted "periods"
        ++ " attribute not found. Possible response json changes").

End FurtherVocabulary.

(** ** Vocabulary of the fetch of the forecast documents *)

(** The link of a points document that a data type selects, when the
    document has it: the ['forecast'] link of its [properties] must be there
    in every case, and the type selects ['forecastHourly'] for ["hourly"],
    ['forecastGridData'] for ["grid"] and ['forecast'] otherwise. *)
Definition points_link (points dtype : value) : option value :=
  match points with
  | VDict pd =>
      match dict_get "properties" pd with
      | Some (VDict props) =>
          match dict_get "forecast" props with
          | Some forecast =>
              if py_eq_str dtype "hourly"
              then dict_get "forecastHourly" props
              else if py_eq_str dtype "grid"
              then dict_get "forecastGridData" props
              else Some forecast
          | None => None
          end
      | _ => None
      end
  | _ => None
  end.

Section FetchVocabulary.

Context {B : Builtins} {U : UTIL}.

(** The request for one address at the default end point. *)
Definition request_of (uri : value) : request := (uri, DEFAULT_END_POINT).

(** The transport answers the requests for the addresses [uris], issued one
    after the other from the log [l] on, with the documents [docs], in that
    order: the first document is the answer to the first address after [l],
    the second the answer to the second address after [l] and the first
    request, and so on. *)
Fixpoint answered (l : log) (uris docs : list value) : Prop :=
  match uris, docs with
  | [], [] => True
  | uri :: uris', doc :: docs' =>
      transport l (request_of uri) = inr doc
      /\ answered (l ++ [request_of uri])%list uris' docs'
  | _, _ => False
  end.

End FetchVocabulary.

(** A third sample world: the first one with a transport that fails on the
    hourly forecast of New York. *)

Module Sample3.

Definition answer (l : log) (r : request) : result value :=
  if py_eq_str (fst r) (Sample.gridpoint ++ "/forecast/hourly")
  then inl (ExternalError "Service Unavailable")
  else Sample.answer l r.

Definition util : UTIL := {|
  transport := answer;
  parse_param_timestamp := Sample.accepts_timestamp;
  parse_param_refuses := fun _ => ExternalError "InvalidTimestampError"
|}.

End Sample3.

(** * Properties *)

(** ** Dictionaries and timestamps *)

Lemma dict_get_set_eq (k : string) (v : value) (d : dict) :
  dict_get k (dict_set k v d) = Some v.
Proof.
  induction d as [|[k' v'] d IH]; simpl.
  - now rewrite String.eqb_refl.
  - destruct (String.eqb k k') eqn:E; simpl; rewrite E; auto.
Qed.

Lemma dict_get_set_neq (k k' : string) (v : value) (d : dict) :
  k <> k' -> dict_get k' (dict_set k v d) = dict_get k' d.
Proof.
  intros Hne. induction d as [|[k0 v0] d IH]; simpl.
  - destruct (String.eqb_spec k' k); congruence.
  - destruct (String.eqb_spec k k0); simpl.
    + subst k0. destruct (String.eqb_spec k' k); congruence.
    + now rewrite IH.
Qed.

Lemma dict_set_length (k : string) (v : value) (d : dict) :
  dict_in k d = true -> length (dict_set k v d) = length d.
Proof.
  unfold dict_in. induction d as [|[k' v'] d IH]; simpl.
  - discriminate.
  - destruct (String.eqb k k'); simpl; auto.
Qed.

Lemma dict_in_get (k : string) (d : dict) :
  dict_in k d = true <-> exists v, dict_get k d = Some v.
Proof.
  unfold dict_in. destruct (dict_get k d).
  - split; eauto.
  - split; [discriminate | intros [v H]; discriminate].
Qed.

(** The built-ins on the texts the source meets. *)
Example split_last_station :
  split_last (VStr "https://api.weather.gov/stations/KNYC") = inr "KNYC"
  /\ split_last (VStr "KNYC") = inr "KNYC"
  /\ split_last (VStr "stations/") = inr EmptyString
  /\ split_last (VInt 7) = inl AttributeError.
Proof. repeat split. Qed.

Example py_in_kinds :
  py_in "status" (VDict [("status", VInt 503)]) = inr true
  /\ py_in "status" (VList [VStr "detail"; VStr "status"]) = inr true
  /\ py_in "status" (VStr "no status here") = inr true
  /\ py_in "status" (VStr "nothing") = inr false
  /\ py_in "status" VNone = inl TypeError.
Proof. repeat split. Qed.

Example py_eq_503_kinds :
  py_eq_503 (VInt 503) = true /\ py_eq_503 (VFloat 503%float) = true
  /\ py_eq_503 (VStr "503") = false /\ py_eq_503 (VBool true) = false.
Proof. repeat split. Qed.

Section Timestamps.

Context {B : Builtins} {U : UTIL}.

Lemma pad_timestamp_complete (suffix s : string) :
  20 <= String.length s -> pad_timestamp suffix s = s.
Proof.
  intros H. unfold pad_timestamp.
  destruct (Nat.ltb_spec (String.length s) 19); [lia|].
  destruct (Nat.ltb_spec (String.length s) 20); [lia|].
  reflexivity.
Qed.

Lemma normalize_timestamp_same (key suffix s : string) (params params' : dict) :
  normalize_timestamp key suffix params = inr params' ->
  dict_get key params = Some (VStr s) ->
  dict_get key params' = Some (VStr (pad_timestamp suffix s)).
Proof.
  unfold normalize_timestamp. intros H Hs. rewrite Hs in H.
  destruct (parse_param_timestamp s); simpl in H; [discriminate|].
  injection H as <-. apply dict_get_set_eq.
Qed.

Lemma normalize_timestamp_other (key suffix k : string) (params params' : dict) :
  normalize_timestamp key suffix params = inr params' ->
  key <> k -> dict_get k params' = dict_get k params.
Proof.
  unfold normalize_timestamp. intros H Hne.
  destruct (dict_get key params) as [[| | | |s| |]|] eqn:E;
    try discriminate; [|now injection H as <-].
  destruct (parse_param_timestamp s); simpl in H; [discriminate|].
  injection H as <-. now apply dict_get_set_neq.
Qed.

Lemma normalize_timestamp_length (key suffix : string) (params params' : dict) :
  normalize_timestamp key suffix params = inr params' ->
  length params' = length params.
Proof.
  unfold normalize_timestamp. intros H.
  destruct (dict_get key params) as [[| | | |s| |]|] eqn:E;
    try discriminate; [|now injection H as <-].
  destruct (parse_param_timestamp s); simpl in H; [discriminate|].
  injection H as <-. apply dict_set_length. unfold dict_in. now rewrite E.
Qed.

Lemma normalize_timestamps_inv (params params' : dict) :
  normalize_timestamps params = inr params' ->
  exists params1,
    normalize_timestamp "start" "T00:00:00Z" params = inr params1
    /\ normalize_timestamp "end" "T23:59:59Z" params1 = inr params'.
Proof.
  unfold normalize_timestamps. intros H.
  destruct (normalize_timestamp "start" "T00:00:00Z" params) as [e|params1];
    simpl in H; [discriminate|].
  now exists params1.
Qed.

Lemma normalize_timestamps_other (k : string) (params params' : dict) :
  normalize_timestamps params = inr params' ->
  k <> "start" -> k <> "end" -> dict_get k params' = dict_get k params.
Proof.
  intros H Hs He. apply normalize_timestamps_inv in H as (params1 & H1 & H2).
  rewrite (normalize_timestamp_other _ _ k _ _ H2) by congruence.
  apply (normalize_timestamp_other _ _ k _ _ H1). congruence.
Qed.

Lemma normalize_timestamps_length (params params' : dict) :
  normalize_timestamps params = inr params' ->
  length params' = length params.
Proof.
  intros H. apply normalize_timestamps_inv in H as (params1 & H1 & H2).
  rewrite (normalize_timestamp_length _ _ _ _ H2).
  apply (normalize_timestamp_length _ _ _ _ H1).
Qed.

(** C1.  Whenever [stations_observations] accepts the timestamps of a
    parameter mapping (normalisation returns the mapping [params']), a text
    under ['start'] is replaced by its padding with [T00:00:00Z] and a text
    under ['end'] by its padding with [T23:59:59Z]; the padding turns the
    date [2020-01-01] into [2020-01-01T00:00:00Z] as a start and into
    [2020-01-01T23:59:59Z] as an end, turns [2020-01-01 12:00:00] into
    [2020-01-01T12:00:00Z], and leaves every text of 20 characters or more
    unchanged. *)
Theorem timestamp_normalization (params params' : dict) :
  normalize_timestamps params = inr params' ->
  (forall s, dict_get "start" params = Some (VStr s) ->
             dict_get "start" params'
             = Some (VStr (pad_timestamp "T00:00:00Z" s)))
  /\ (forall s, dict_get "end" params = Some (VStr s) ->
                dict_get "end" params'
                = Some (VStr (pad_timestamp "T23:59:59Z" s)))
  /\ pad_timestamp "T00:00:00Z" "2020-01-01" = "2020-01-01T00:00:00Z"
  /\ pad_timestamp "T23:59:59Z" "2020-01-01" = "2020-01-01T23:59:59Z"
  /\ (forall suffix,
        pad_timestamp suffix "2020-01-01 12:00:00" = "2020-01-01T12:00:00Z")
  /\ (forall suffix s,
        20 <= String.length s -> pad_timestamp suffix s = s).
Proof.
  intros H. apply normalize_timestamps_inv in H as (params1 & H1 & H2).
  repeat split; try reflexivity.
  - intros s Hs.
    rewrite (normalize_timestamp_other _ _ "start" _ _ H2) by discriminate.
    now apply (normalize_timestamp_same _ _ s _ _ H1).
  - intros s Hs. apply (normalize_timestamp_same _ _ s _ _ H2).
    now rewrite (normalize_timestamp_other _ _ "end" _ _ H1) by discriminate.
  - intros suffix s. apply pad_timestamp_complete.
Qed.

End Timestamps.

(** ** Observation queries of one station *)

Section StationsObservations.

Context {B : Builtins} {U : UTIL}.

(** C6.  For a non-empty [station_id] and a parameter mapping that has both
    the key ['current'] and the key ['recordId'], whatever their values and
    whatever else the mapping holds, [stations_observations] raises the
    exception that says the two cannot be combined, and the request log is
    unchanged: no request is issued. *)
Theorem current_and_recordId_conflict
    (station_id : value) (params : dict) (l : log) :
  py_truthy station_id = true ->
  dict_in "current" params = true ->
  dict_in "recordId" params = true ->
  stations_observations station_id params l
  = (inl (Exception (VStr "Cannot have both 'current' and 'recordId'")), l).
Proof.
  intros Hid Hc Hr. unfold stations_observations.
  rewrite Hid, Hc, Hr. reflexivity.
Qed.

Lemma stations_observations_query
    (station_id : value) (params params' : dict) (l : log) :
  py_truthy station_id = true ->
  normalize_timestamps params = inr params' ->
  params <> [] ->
  dict_get "recordId" params = None ->
  dict_in "current" params = false ->
  stations_observations station_id params l
  = (features_of
       (transport l (VStr (query_uri station_id params'), DEFAULT_END_POINT)),
     (l ++ [(VStr (query_uri station_id params'), DEFAULT_END_POINT)])%list).
Proof.
  intros Hid Hn Hne Hr Hc. unfold stations_observations.
  assert (Hr' : dict_get "recordId" params' = None)
    by (rewrite (normalize_timestamps_other _ _ _ Hn); [assumption | discriminate..]).
  assert (Hc' : dict_in "current" params' = false)
    by (unfold dict_in in *;
        rewrite (normalize_timestamps_other _ _ _ Hn); [assumption | discriminate..]).
  assert (Hl : (0 <? length params')%nat = true).
  { rewrite (normalize_timestamps_length _ _ Hn).
    destruct params; [congruence | reflexivity]. }
  rewrite Hid. unfold dict_in at 1. rewrite Hr. simpl.
  unfold bind, lift. rewrite Hn, Hl, Hr', Hc'.
  unfold make_get_request, features_of, query_uri.
  destruct (transport l _) as [e|observations]; simpl; [reflexivity|].
  destruct (py_in "features" observations) as [e|[|]]; reflexivity.
Qed.

(** C10.  With a non-empty [station_id] and accepted timestamps, the result
    of [stations_observations] has one of two shapes.  With no parameter at
    all, with ['recordId'] (and no ['current']), or with ['current'] (and no
    ['recordId']), it is exactly what the one request returns (or raises): no
    look at ['features'].  In the remaining case, at least one parameter and
    neither of the two keys, the document is checked: when it has no
    ['features'] key the document itself is raised, otherwise the value
    under ['features'] is returned. *)
Theorem stations_observations_return_shape
    (station_id : value) (params params' : dict) (l : log) :
  py_truthy station_id = true ->
  normalize_timestamps params = inr params' ->
  (params = [] ->
   stations_observations station_id params l
   = make_get_request (VStr (observations_uri station_id))
                      DEFAULT_END_POINT l)
  /\ (forall recordId,
        dict_get "recordId" params = Some recordId ->
        dict_in "current" params = false ->
        stations_observations station_id params l
        = make_get_request
            (VStr (observations_uri station_id ++ "/" ++ py_str recordId))
            DEFAULT_END_POINT l)
  /\ (dict_in "current" params = true ->
      dict_get "recordId" params = None ->
      stations_observations station_id params l
      = make_get_request (VStr (observations_uri station_id ++ "/current"))
                         DEFAULT_END_POINT l)
  /\ (params <> [] ->
      dict_get "recordId" params = None ->
      dict_in "current" params = false ->
      let uri := VStr (query_uri station_id params') in
      stations_observations station_id params l
      = (match transport l (uri, DEFAULT_END_POINT) with
         | inl e => inl e
         | inr (VDict d) =>
             match dict_get "features" d with
             | Some features => inr features
             | None => inl (Exception (VDict d))
             end
         | inr observations => features_of (inr observations)
         end,
         (l ++ [(uri, DEFAULT_END_POINT)])%list)).
Proof.
  intros Hid Hn.
  assert (Hlen : length params' = length params)
    by apply (normalize_timestamps_length _ _ Hn).
  assert (Hrec : dict_get "recordId" params' = dict_get "recordId" params)
    by (apply (normalize_timestamps_other _ _ _ Hn); discriminate).
  assert (Hcur : dict_in "current" params' = dict_in "current" params)
    by (unfold dict_in;
        rewrite (normalize_timestamps_other _ _ _ Hn); [reflexivity | discriminate..]).
  repeat split.
  - intros ->. unfold stations_observations. rewrite Hid. simpl.
    unfold normalize_timestamps, normalize_timestamp in Hn. simpl in Hn.
    injection Hn as <-. reflexivity.
  - intros recordId Hr Hc. unfold stations_observations.
    rewrite Hid, Hc, andb_false_r. simpl. unfold bind, lift.
    rewrite Hn, Hrec, Hr, Hlen.
    destruct params; [discriminate | reflexivity].
  - intros Hc Hr. unfold stations_observations.
    rewrite Hid. unfold dict_in at 1. rewrite Hr. simpl. unfold bind, lift.
    rewrite Hn, Hrec, Hr, Hcur, Hc, Hlen.
    destruct params; [discriminate | reflexivity].
  - intros Hne Hr Hc uri.
    rewrite (stations_observations_query _ _ _ _ Hid Hn Hne Hr Hc).
    subst uri. f_equal.
    destruct (transport l _) as [e|[| | | | | |d]]; try reflexivity.
    unfold features_of, py_in, py_getitem, dict_in. simpl.
    destruct (dict_get "features" d); reflexivity.
Qed.

(** C8.  With a true [count], [active_alerts] issues one request, whatever
    the other parameters: its path is [/alerts/count], which is not the
    path [/alerts/active/count] of the active-alerts count resource. *)
Theorem active_alerts_count_path (params : dict) (l : log) :
  active_alerts (VBool true) params l
  = make_get_request (VStr "/alerts/count") DEFAULT_END_POINT l
  /\ snd (active_alerts (VBool true) params l)
     = (l ++ [(VStr "/alerts/count", DEFAULT_END_POINT)])%list
  /\ VStr "/alerts/count" <> VStr "/alerts/active/count".
Proof.
  repeat split. discriminate.
Qed.

End StationsObservations.

(** ** Forecasts *)

Section Forecasts.

Context {B : Builtins} {U : UTIL} {Geo : Geocoders}.

Lemma fetch_forecasts_length (points : value) (data_type docs : list value)
    (l l' : log) :
  fetch_forecasts points data_type l = (inr docs, l') ->
  length docs = length data_type.
Proof.
  revert docs l l'. induction data_type as [|dtype rest IH]; intros docs l l'.
  - simpl. unfold ret. intros H. now inversion H.
  - simpl. unfold bind, lift, make_get_request, ret.
    destruct (forecast_uri points dtype) as [e|uri]; [discriminate|].
    destruct (transport l (uri, DEFAULT_END_POINT)) as [e|response];
      [discriminate|].
    destruct (fetch_forecasts points rest _) as [[e|responses] l2] eqn:E;
      [discriminate|].
    intros H. inversion H; subst. simpl. f_equal. eapply IH, E.
Qed.

(** [points_forecast] returns one document per requested type. *)
Lemma points_forecast_length (lat long : float) (data_type : value)
    (docs : list value) (l l' : log) :
  points_forecast lat long data_type l = (inr docs, l') ->
  length docs = length (as_list data_type).
Proof.
  unfold points_forecast.
  destruct (forallb supported (as_list data_type)); simpl; [|discriminate].
  unfold bind, make_get_request.
  destruct (transport l _) as [e|points]; [discriminate|].
  apply fetch_forecasts_length.
Qed.

Lemma validated_projection (dtype res : value) :
  forecast_document res = true ->
  passes_validation dtype res = true ->
  exists item, project_forecast dtype res = inr item
               /\ projection_of dtype res item.
Proof.
  unfold forecast_document, passes_validation, validate_forecast,
    project_forecast, projection_of.
  destruct res as [| | | | | |d]; try discriminate.
  remember (py_eq_str dtype "grid") as grid eqn:Eg.
  unfold py_in, py_getitem, dict_in, andR, notR. simpl.
  destruct (dict_get "properties" d) as [[| | | | | |p]|] eqn:Ep;
    try discriminate; intros _; simpl.
  - destruct (dict_get "periods" p) as [periods|] eqn:Eper;
      destruct grid; simpl.
    + intros _. exists (VDict p). split; [reflexivity|]. now exists d, p.
    + intros _. exists periods. split; [reflexivity|]. now exists d, p.
    + intros _. exists (VDict p). split; [reflexivity|]. now exists d, p.
    + destruct (dict_get "status" d) as [status|]; simpl;
        [destruct (py_eq_503 status); simpl;
         [destruct (dict_get "detail" d); simpl|]|]; discriminate.
  - destruct (dict_get "status" d) as [status|]; simpl;
      [destruct (py_eq_503 status); simpl;
       [destruct (dict_get "detail" d); simpl|]|]; discriminate.
Qed.

Lemma forecast_results_valid (pairs : list (value * value)) :
  valid_pairs pairs ->
  exists items,
    forecast_results pairs = inr items
    /\ Forall2 (fun p item => projection_of (fst p) (snd p) item) pairs items.
Proof.
  unfold valid_pairs. induction pairs as [|[dtype res] rest IH]; intros Hv.
  - exists []. split; [reflexivity | constructor].
  - destruct (Hv dtype res (or_introl eq_refl)) as [Hdoc Hval].
    destruct (validated_projection _ _ Hdoc Hval) as (item & Hitem & Hproj).
    destruct IH as (items & Hitems & Hall).
    { intros dt r Hin. apply Hv. now right. }
    exists (item :: items). split.
    + simpl. unfold passes_validation in Hval.
      destruct (validate_forecast dtype res); [discriminate|]. simpl.
      rewrite Hitem. simpl. rewrite Hitems. reflexivity.
    + now constructor.
Qed.

Lemma projections_aligned (data_type docs items : list value) :
  length docs = length data_type ->
  Forall2 (fun p item => projection_of (fst p) (snd p) item)
          (combine data_type docs) items ->
  length items = length data_type
  /\ forall i dtype,
       nth_error data_type i = Some dtype ->
       exists res item,
         nth_error docs i = Some res /\ nth_error items i = Some item
         /\ projection_of dtype res item.
Proof.
  revert docs items.
  induction data_type as [|dt rest IH]; intros docs items Hlen Hall.
  - destruct docs; [|discriminate]. inversion Hall; subst.
    split; [reflexivity|]. intros [|i] dtype; discriminate.
  - destruct docs as [|res docs]; [discriminate|].
    simpl in Hall. inversion Hall as [|p item ps items' Hp Hrest]; subst.
    injection Hlen as Hlen.
    destruct (IH docs items' Hlen Hrest) as [Hl Hnth].
    split; [simpl; now f_equal|].
    intros [|i] dtype; simpl.
    + intros [= <-]. now exists res, item.
    + apply Hnth.
Qed.

Lemma points_link_sound (points dtype uri : value) :
  points_link points dtype = Some uri ->
  forecast_uri points dtype = inr uri.
Proof.
  unfold points_link, forecast_uri, py_getitem.
  destruct points as [| | | | | |pd]; try discriminate.
  destruct (dict_get "properties" pd) as [[| | | | | |props]|];
    try discriminate.
  cbn [bindR].
  destruct (dict_get "forecast" props) as [forecast|]; [|discriminate].
  cbn [bindR].
  destruct (py_eq_str dtype "hourly"); [now intros ->|].
  destruct (py_eq_str dtype "grid"); [now intros ->|].
  now intros [= ->].
Qed.

Lemma fetch_forecasts_step (points dtype uri : value) (rest : list value)
    (l : log) :
  forecast_uri points dtype = inr uri ->
  fetch_forecasts points (dtype :: rest) l
  = match transport l (request_of uri) with
    | inl e => (inl e, (l ++ [request_of uri])%list)
    | inr response =>
        match fetch_forecasts points rest (l ++ [request_of uri])%list with
        | (inl e, l2) => (inl e, l2)
        | (inr responses, l2) => (inr (response :: responses), l2)
        end
    end.
Proof.
  intros Huri. cbn [fetch_forecasts].
  unfold bind, lift, make_get_request, ret, request_of. rewrite Huri.
  destruct (transport l (uri, DEFAULT_END_POINT)); reflexivity.
Qed.

(** When every request is answered, the documents returned are the answers,
    each at the position of the type it was requested for. *)
Lemma fetch_forecasts_answered (points : value)
    (data_type uris : list value) :
  Forall2 (fun dtype uri => forecast_uri points dtype = inr uri)
          data_type uris ->
  forall (docs : list value) (l : log),
    answered l uris docs ->
    fetch_forecasts points data_type l
    = (inr docs, (l ++ map request_of uris)%list).
Proof.
  intros Hlinks.
  induction Hlinks as [|dtype uri rest uris Huri Hlinks IH]; intros docs l.
  - destruct docs; [|contradiction]. intros _. simpl. now rewrite app_nil_r.
  - destruct docs as [|doc docs]; [contradiction|]. intros [Ht Hrest].
    rewrite (fetch_forecasts_step _ _ _ _ _ Huri), Ht.
    rewrite (IH docs _ Hrest). cbn [map]. now rewrite <- app_assoc.
Qed.

Lemma answered_length (l : log) (uris docs : list value) :
  answered l uris docs -> length docs = length uris.
Proof.
  revert l docs. induction uris as [|uri uris IH]; intros l [|doc docs];
    simpl; try contradiction; [reflexivity|].
  intros [_ H]. f_equal. apply (IH _ _ H).
Qed.

Lemma answered_nth (l : log) (uris docs : list value) (i : nat)
    (uri : value) :
  answered l uris docs ->
  nth_error uris i = Some uri ->
  exists doc,
    nth_error docs i = Some doc
    /\ transport (l ++ map request_of (firstn i uris))%list (request_of uri)
       = inr doc.
Proof.
  revert l docs i. induction uris as [|u uris IH]; intros l [|doc docs] i;
    simpl; try contradiction.
  - destruct i; discriminate.
  - intros [Ht Hrest]. destruct i as [|i]; simpl.
    + intros [= <-]. exists doc. now rewrite app_nil_r.
    + intros Hi. destruct (IH _ _ _ Hrest Hi) as (d & Hd & Htd).
      exists d. split; [assumption|]. now rewrite <- app_assoc in Htd.
Qed.

(** C3.  When the coordinate is resolved, the points document has the link
    of every requested type, the transport answers the request for each of
    these links, issued in the order of the request after the points
    request, and every answer is a forecast document that passes validation
    for the type it was requested for, [get_forecasts] issues exactly these
    requests and returns a list with exactly one item per requested data
    type, in the order requested: the item at position [i] comes from the
    document the transport returned for the link of the type at position
    [i], and is that document's [properties] object for the grid type and
    the [periods] of its [properties] for any other type. *)
Theorem get_forecasts_aligned
    (postal_code country : string) (data_type : value)
    (return_result_object : bool) (l : log)
    (lat lon : float) (result_object : option geo_result)
    (points : value) (uris docs : list value) :
  get_lat_lon_by_postalcode_country postal_code country return_result_object
  = inr (lat, lon, result_object) ->
  forallb supported (as_list data_type) = true ->
  transport l (VStr ("/points/" ++ float_str lat ++ "," ++ float_str lon),
               DEFAULT_END_POINT) = inr points ->
  Forall2 (fun dtype uri => points_link points dtype = Some uri)
          (as_list data_type) uris ->
  answered (l ++ [(VStr ("/points/" ++ float_str lat ++ ","
                         ++ float_str lon), DEFAULT_END_POINT)])%list
           uris docs ->
  valid_pairs (combine (as_list data_type) docs) ->
  let after_points :=
    (l ++ [(VStr ("/points/" ++ float_str lat ++ "," ++ float_str lon),
            DEFAULT_END_POINT)])%list in
  exists items,
    get_forecasts postal_code country data_type return_result_object l
    = (inr (items, result_object),
       (after_points ++ map request_of uris)%list)
    /\ length items = length (as_list data_type)
    /\ forall i dtype,
         nth_error (as_list data_type) i = Some dtype ->
         exists uri res item,
           nth_error uris i = Some uri
           /\ points_link points dtype = Some uri
           /\ transport (after_points ++ map request_of (firstn i uris))%list
                        (request_of uri) = inr res
           /\ nth_error docs i = Some res
           /\ nth_error items i = Some item
           /\ projection_of dtype res item.
Proof.
  intros Hgeo Hsup Hpoints Hlinks Hanswered Hvalid after_points.
  fold after_points in Hanswered.
  assert (Hfetch : points_forecast lat lon (VList (as_list data_type)) l
                   = (inr docs, (after_points ++ map request_of uris)%list)).
  { unfold points_forecast. cbn [as_list]. rewrite Hsup. cbn [negb].
    unfold bind at 1, make_get_request. rewrite Hpoints.
    apply fetch_forecasts_answered; [|exact Hanswered].
    clear -Hlinks. induction Hlinks; constructor; auto.
    now apply points_link_sound. }
  destruct (forecast_results_valid _ Hvalid) as (items & Hitems & Hall).
  assert (Hlen : length docs = length (as_list data_type)).
  { rewrite (answered_length _ _ _ Hanswered).
    symmetry. apply (Forall2_length Hlinks). }
  destruct (projections_aligned _ _ _ Hlen Hall) as [Hl Hnth].
  exists items. split; [|split; [assumption|]].
  - unfold get_forecasts, bind, lift, ret.
    rewrite Hgeo, Hfetch, Hitems. reflexivity.
  - intros i dtype Hi.
    destruct (Hnth i dtype Hi) as (res & item & Hres & Hitem & Hproj).
    assert (Huri : exists uri, nth_error uris i = Some uri
                               /\ points_link points dtype = Some uri).
    { clear -Hlinks Hi. revert i Hi.
      induction Hlinks as [|dt u dts us Hu Hlinks IH]; intros [|i] Hi;
        simpl in *; try discriminate.
      - injection Hi as <-. now exists u.
      - now apply IH. }
    destruct Huri as (uri & Huri & Hlink).
    destruct (answered_nth _ _ _ _ _ Hanswered Huri) as (doc & Hdoc & Htd).
    rewrite Hres in Hdoc. injection Hdoc as <-.
    now exists uri, res, item.
Qed.

Lemma validate_upstream_error (dtype : value) (d : dict)
    (status detail : value) :
  dict_get "status" d = Some status ->
  py_eq_503 status = true ->
  dict_get "detail" d = Some detail ->
  validate_forecast dtype (VDict d)
  = inl (Exception (VStr ("Status: " ++ py_str status
                          ++ ", NOAA API Error Response: "
                          ++ py_str detail))).
Proof.
  intros Hs H503 Hd.
  unfold validate_forecast, py_in, py_getitem, dict_in, andR.
  rewrite Hs, Hd. simpl. rewrite H503. reflexivity.
Qed.

Lemma forecast_results_upstream_error
    (before after docs_before docs_after : list value)
    (dtype : value) (d : dict) (status detail : value) :
  length before = length docs_before ->
  valid_pairs (combine before docs_before) ->
  dict_get "status" d = Some status ->
  py_eq_503 status = true ->
  dict_get "detail" d = Some detail ->
  forecast_results (combine (before ++ dtype :: after)
                            (docs_before ++ VDict d :: docs_after))
  = inl (Exception (VStr ("Status: " ++ py_str status
                          ++ ", NOAA API Error Response: "
                          ++ py_str detail))).
Proof.
  intros Hlen Hvalid Hs H503 Hd. revert docs_before Hlen Hvalid.
  induction before as [|dt before IH]; intros [|res docs_before] Hlen Hvalid;
    try discriminate.
  - simpl. now rewrite (validate_upstream_error dtype d status detail).
  - simpl. injection Hlen as Hlen.
    destruct (Hvalid dt res (or_introl eq_refl)) as [Hdoc Hval].
    destruct (validated_projection _ _ Hdoc Hval) as (item & Hitem & _).
    unfold passes_validation in Hval.
    destruct (validate_forecast dt res); [discriminate|]. simpl.
    rewrite Hitem. simpl. rewrite IH; [reflexivity | assumption |].
    intros dt' res' Hin. apply Hvalid. now right.
Qed.

(** C4 (amended).  When the documents are fetched and one of them is an
    object with a ['status'] equal to 503 and a ['detail'], and every
    document fetched for an earlier requested type is a forecast document
    that passes validation, [get_forecasts] raises the exception whose
    message carries that status and that detail, and returns no result. *)
Theorem upstream_error_reported
    (postal_code country : string) (data_type : value)
    (return_result_object : bool) (l l' : log)
    (lat lon : float) (result_object : option geo_result)
    (before after docs_before docs_after : list value)
    (dtype : value) (d : dict) (status detail : value) :
  get_lat_lon_by_postalcode_country postal_code country return_result_object
  = inr (lat, lon, result_object) ->
  as_list data_type = (before ++ dtype :: after)%list ->
  points_forecast lat lon (VList (as_list data_type)) l
  = (inr (docs_before ++ VDict d :: docs_after)%list, l') ->
  length before = length docs_before ->
  valid_pairs (combine before docs_before) ->
  dict_get "status" d = Some status ->
  py_eq_503 status = true ->
  dict_get "detail" d = Some detail ->
  get_forecasts postal_code country data_type return_result_object l
  = (inl (Exception (VStr ("Status: " ++ py_str status
                           ++ ", NOAA API Error Response: "
                           ++ py_str detail))), l').
Proof.
  intros Hgeo Hsplit Hfetch Hlen Hvalid Hs H503 Hd.
  unfold get_forecasts, bind, lift, ret.
  rewrite Hgeo, Hfetch, Hsplit.
  now rewrite (forecast_results_upstream_error _ _ _ _ _ _ status detail).
Qed.

(** On a points document without ['properties'], the forecast path fails at
    the first subscript, with the [KeyError] of the missing key. *)
Lemma points_forecast_missing_properties
    (lat long : float) (dtype : value) (rest : list value) (d : dict)
    (l : log) :
  forallb supported (dtype :: rest) = true ->
  transport l (VStr ("/points/" ++ float_str lat ++ "," ++ float_str long),
               DEFAULT_END_POINT) = inr (VDict d) ->
  dict_get "properties" d = None ->
  points_forecast lat long (VList (dtype :: rest)) l
  = (inl (KeyError "properties"),
     (l ++ [(VStr ("/points/" ++ float_str lat ++ "," ++ float_str long),
             DEFAULT_END_POINT)])%list).
Proof.
  intros Hsup Ht Hp. unfold points_forecast.
  cbn [as_list]. rewrite Hsup. cbn [negb].
  unfold bind, make_get_request. rewrite Ht.
  cbn [fetch_forecasts]. unfold bind, lift, forecast_uri, py_getitem.
  rewrite Hp. reflexivity.
Qed.

(** On the same document the observation path raises the exception of its
    explicit check. *)
Lemma observation_stations_missing_properties
    (lat lon : float) (d : dict) (l : log) :
  transport l (VStr ("/points/" ++ rounded_point lat lon), DEFAULT_END_POINT)
  = inr (VDict d) ->
  dict_get "properties" d = None ->
  observation_stations lat lon l
  = (inl (Exception (VStr "Error: No Observation Stations found.")),
     (l ++ [(VStr ("/points/" ++ rounded_point lat lon),
             DEFAULT_END_POINT)])%list).
Proof.
  intros Ht Hp. unfold observation_stations, points, bind, make_get_request.
  cbn [py_truthy py_str]. rewrite Ht.
  unfold lift, orR, notR, py_in, dict_in. rewrite Hp. reflexivity.
Qed.

(** C5.  On a points document that is an object without ['properties'],
    the two dependent paths differ.  The forecast path has no check: with at
    least one requested type [points_forecast] and [get_forecasts] fail with
    the [KeyError] of the subscript, and with an empty list of types
    [points_forecast] returns the empty list.  The observation stream fails
    with the exception of its explicit check. *)
Theorem missing_properties_failures
    (lat lon : float) (d : dict) (l : log) :
  dict_get "properties" d = None ->
  let forecast_points :=
    (VStr ("/points/" ++ float_str lat ++ "," ++ float_str lon),
     DEFAULT_END_POINT) in
  let observation_points :=
    (VStr ("/points/" ++ rounded_point lat lon), DEFAULT_END_POINT) in
  (transport l forecast_points = inr (VDict d) ->
   (forall dtype rest,
      forallb supported (dtype :: rest) = true ->
      points_forecast lat lon (VList (dtype :: rest)) l
      = (inl (KeyError "properties"), (l ++ [forecast_points])%list))
   /\ (forall postal_code country dtype rest flag result_object,
         forallb supported (dtype :: rest) = true ->
         get_lat_lon_by_postalcode_country postal_code country flag
         = inr (lat, lon, result_object) ->
         get_forecasts postal_code country (VList (dtype :: rest)) flag l
         = (inl (KeyError "properties"), (l ++ [forecast_points])%list))
   /\ points_forecast lat lon (VList []) l
      = (inr [], (l ++ [forecast_points])%list))
  /\ (transport l observation_points = inr (VDict d) ->
      forall start end_ num_of_stations,
        get_observations_by_lat_lon lat lon start end_ num_of_stations l
        = (Stream [] (Some (Exception
                              (VStr "Error: No Observation Stations found."))),
           (l ++ [observation_points])%list)).
Proof.
  intros Hp forecast_points observation_points. split.
  - intros Ht. repeat split.
    + intros dtype rest Hsup.
      now apply (points_forecast_missing_properties _ _ _ _ d).
    + intros postal_code country dtype rest flag result_object Hsup Hgeo.
      unfold get_forecasts, bind, lift. rewrite Hgeo. cbn [as_list].
      now rewrite (points_forecast_missing_properties _ _ _ _ d).
    + unfold points_forecast, bind, make_get_request.
      cbn [as_list forallb negb]. fold forecast_points. now rewrite Ht.
  - intros Ht start end_ num_of_stations.
    unfold get_observations_by_lat_lon.
    now rewrite (observation_stations_missing_properties _ _ d).
Qed.

End Forecasts.

(** ** The observation stream *)

Section ObservationStream.

Context {B : Builtins} {U : UTIL}.

Lemma yield_properties_records (features : list dict) :
  yield_properties (map VDict features) = Stream (records features) None.
Proof.
  induction features as [|d features IH]; simpl; [reflexivity|].
  rewrite IH. simpl. destruct (dict_get "properties" d); reflexivity.
Qed.

Lemma stations_observations_plain (station_id : value) (l : log) :
  py_truthy station_id = true ->
  stations_observations station_id [] l
  = make_get_request (VStr (observations_uri station_id))
                     DEFAULT_END_POINT l.
Proof.
  intros Hid. unfold stations_observations. rewrite Hid. reflexivity.
Qed.

Lemma stations_observations_params_modes (start end_ : value) :
  dict_get "recordId" (stations_observations_params start end_) = None
  /\ dict_in "current" (stations_observations_params start end_) = false.
Proof.
  unfold stations_observations_params.
  destruct (py_truthy start), (py_truthy end_); split; reflexivity.
Qed.

Lemma station_observations_answered
    (start end_ : value) (params' : dict) (s : string)
    (features : list dict) (l : log) :
  normalize_timestamps (stations_observations_params start end_)
  = inr params' ->
  station_answers params' s features ->
  station_observations (stations_observations_params start end_) (VStr s) l
  = (Stream (records features) None,
     (l ++ [observation_request params' s])%list).
Proof.
  intros Hn (Hid & d & Hf & Ht).
  assert (Htruthy : py_truthy (VStr (station_id_of s)) = true).
  { simpl. destruct (String.eqb_spec (station_id_of s) ""); [contradiction|].
    reflexivity. }
  destruct (stations_observations_params_modes start end_) as [Hr Hc].
  unfold station_observations. cbn [split_last]. fold (station_id_of s).
  destruct (stations_observations_params start end_) as [|kv params] eqn:Ep.
  - rewrite (stations_observations_plain _ _ Htruthy).
    unfold normalize_timestamps, normalize_timestamp in Hn. simpl in Hn.
    injection Hn as <-.
    specialize (Ht l). unfold observation_request, query_uri in Ht.
    simpl in Ht. unfold make_get_request. rewrite Ht.
    unfold py_getitem. rewrite Hf. simpl.
    now rewrite yield_properties_records.
  - rewrite (stations_observations_query _ _ _ _ Htruthy Hn)
      by (assumption || discriminate).
    specialize (Ht l). unfold observation_request in Ht. rewrite Ht.
    unfold features_of, py_in, py_getitem, dict_in. simpl. rewrite Hf. simpl.
    now rewrite yield_properties_records.
Qed.

Lemma remaining_cons {A : Type} (n : Z) (index : nat) (x : A) (xs : list A) :
  bound_reached n index = false ->
  remaining n index (x :: xs) = x :: remaining n (S index) xs.
Proof.
  unfold bound_reached, remaining.
  destruct (Z.ltb_spec 0 n); simpl; [|reflexivity].
  destruct (Z.leb_spec n (Z.of_nat index)); [discriminate|]. intros _.
  replace (Z.to_nat n - index) with (S (Z.to_nat n - S index)) by lia.
  reflexivity.
Qed.

Lemma remaining_stop {A : Type} (n : Z) (index : nat) (xs : list A) :
  bound_reached n index = true -> remaining n index xs = [].
Proof.
  unfold bound_reached, remaining.
  destruct (Z.ltb_spec 0 n); simpl; [|discriminate].
  destruct (Z.leb_spec n (Z.of_nat index)); [|discriminate]. intros _.
  replace (Z.to_nat n - index) with 0 by lia. reflexivity.
Qed.

Lemma stations_loop_answered
    (start end_ : value) (params' : dict) (n : Z)
    (uris : list string) (featuress : list (list dict)) :
  normalize_timestamps (stations_observations_params start end_)
  = inr params' ->
  Forall2 (station_answers params') uris featuress ->
  forall (index : nat) (l : log),
    stations_loop (stations_observations_params start end_) n index
                  (map VStr uris) l
    = (Stream (concat (map records (remaining n index featuress))) None,
       (l ++ map (observation_request params')
                 (remaining n index uris))%list).
Proof.
  intros Hn Hall. induction Hall as [|s features uris featuress Hs Hall IH];
    intros index l.
  - simpl. unfold remaining. destruct (0 <? n)%Z;
      rewrite ?firstn_nil; simpl; now rewrite app_nil_r.
  - cbn [map stations_loop].
    destruct (bound_reached n index) eqn:Eb.
    + rewrite !remaining_stop by assumption. simpl. now rewrite app_nil_r.
    + rewrite !remaining_cons by assumption.
      rewrite (station_observations_answered _ _ _ _ _ _ Hn Hs).
      cbn [raised yielded]. rewrite IH. cbn [raised yielded map concat].
      now rewrite <- app_assoc.
Qed.

Lemma stations_loop_unbounded (params : dict) (n : Z) (stations : list value) :
  (n <= 0)%Z ->
  forall (index : nat) (l : log),
    stations_loop params n index stations l
    = stations_loop params 0 index stations l.
Proof.
  intros Hn. induction stations as [|station rest IH]; intros index l.
  - reflexivity.
  - cbn [stations_loop]. unfold bound_reached.
    destruct (Z.ltb_spec 0 n); [lia|]. simpl.
    destruct (station_observations params station l) as [s l1].
    destruct (raised s); [reflexivity|]. now rewrite IH.
Qed.

Lemma observation_stations_listed (lat lon : float) (l : log) (link : value)
    (uris : list string) :
  stations_listed lat lon l link uris ->
  observation_stations lat lon l
  = (inr (map VStr uris),
     (l ++ [(VStr ("/points/" ++ rounded_point lat lon), DEFAULT_END_POINT);
            (link, DEFAULT_END_POINT)])%list).
Proof.
  intros (pd & props & sd & Hp & Hprops & Hlink & Hs & Hlist).
  unfold observation_stations, points, bind, make_get_request.
  cbn [py_truthy py_str]. rewrite Hp.
  unfold lift, orR, notR, py_in, py_getitem, dict_in.
  rewrite Hprops. cbn [bindR negb]. rewrite Hlink. cbn [bindR negb].
  rewrite Hs. cbn [bindR]. rewrite Hlist. cbn [bindR py_iter].
  now rewrite <- app_assoc.
Qed.

Lemma observation_stream_answered
    (lat lon : float) (start end_ : value) (n : Z) (l : log)
    (link : value) (params' : dict)
    (uris : list string) (featuress : list (list dict)) :
  stations_listed lat lon l link uris ->
  normalize_timestamps (stations_observations_params start end_)
  = inr params' ->
  Forall2 (station_answers params') uris featuress ->
  get_observations_by_lat_lon lat lon start end_ n l
  = (Stream (concat (map records (remaining n 0 featuress))) None,
     (l ++ [(VStr ("/points/" ++ rounded_point lat lon), DEFAULT_END_POINT);
            (link, DEFAULT_END_POINT)]
        ++ map (observation_request params') (remaining n 0 uris))%list).
Proof.
  intros Hlisted Hn Hall. unfold get_observations_by_lat_lon.
  rewrite (observation_stations_listed _ _ _ _ _ Hlisted).
  rewrite (stations_loop_answered _ _ _ n _ _ Hn Hall).
  now rewrite <- app_assoc.
Qed.

End ObservationStream.

(** ** Station bound *)

Section StationBound.

Context {B : Builtins} {U : UTIL}.

(** C2 (amended).  When the points document links to the station list, the
    timestamps are accepted and every station answers its observation
    query, the stream depends on [num_of_stations] as follows.  A positive
    [num_of_stations] stops it after that many stations (after all of them
    when the list is shorter): it yields the records of the first
    [num_of_stations] stations and issues, after the two requests for the
    points document and the station list, one observation request for each
    of them and none for a later station; with [num_of_stations = 1] that is
    the first station alone.  A zero or negative [num_of_stations]:
    the records of every station, one observation request each. *)
Theorem observation_stream_bound
    (lat lon : float) (start end_ : value) (n : Z) (l : log)
    (link : value) (params' : dict)
    (uris : list string) (featuress : list (list dict)) :
  stations_listed lat lon l link uris ->
  normalize_timestamps (stations_observations_params start end_)
  = inr params' ->
  Forall2 (station_answers params') uris featuress ->
  let before :=
    (l ++ [(VStr ("/points/" ++ rounded_point lat lon), DEFAULT_END_POINT);
           (link, DEFAULT_END_POINT)])%list in
  ((0 < n)%Z ->
   get_observations_by_lat_lon lat lon start end_ n l
   = (Stream (concat (map records (firstn (Z.to_nat n) featuress))) None,
      (before ++ map (observation_request params')
                     (firstn (Z.to_nat n) uris))%list))
  /\ ((n <= 0)%Z ->
      get_observations_by_lat_lon lat lon start end_ n l
      = (Stream (concat (map records featuress)) None,
         (before ++ map (observation_request params') uris)%list))
  /\ (forall s uris', uris = s :: uris' ->
        snd (get_observations_by_lat_lon lat lon start end_ 1 l)
        = (before ++ [observation_request params' s])%list).
Proof.
  intros Hlisted Hn Hall before.
  pose proof (observation_stream_answered lat lon start end_ n l link params'
                uris featuress Hlisted Hn Hall) as H.
  unfold remaining in H. rewrite Nat.sub_0_r in H. subst before.
  repeat split.
  - intros Hpos. destruct (Z.ltb_spec 0 n); [|lia].
    rewrite H. now rewrite <- app_assoc.
  - intros Hneg. destruct (Z.ltb_spec 0 n); [lia|].
    rewrite H. now rewrite <- app_assoc.
  - intros s uris' ->.
    rewrite (observation_stream_answered lat lon start end_ 1 l link params'
               _ featuress Hlisted Hn Hall).
    cbn [snd]. now rewrite <- app_assoc.
Qed.

(** C9.  With [num_of_stations = 0] the bound check is false at every
    position and the stream is the one of any negative value; when the
    points document links to the station list, the timestamps are accepted
    and every station answers, it yields the records of every station of the
    list and issues an observation request for each. *)
Theorem zero_stations_is_no_bound
    (lat lon : float) (start end_ : value) (l : log)
    (link : value) (params' : dict)
    (uris : list string) (featuress : list (list dict)) :
  stations_listed lat lon l link uris ->
  normalize_timestamps (stations_observations_params start end_)
  = inr params' ->
  Forall2 (station_answers params') uris featuress ->
  get_observations_by_lat_lon lat lon start end_ 0 l
  = (Stream (concat (map records featuress)) None,
     (l ++ [(VStr ("/points/" ++ rounded_point lat lon), DEFAULT_END_POINT);
            (link, DEFAULT_END_POINT)]
        ++ map (observation_request params') uris)%list)
  /\ (forall index, bound_reached 0 index = false)
  /\ (forall n lat' lon' start' end' l',
        (n < 0)%Z ->
        get_observations_by_lat_lon lat' lon' start' end' n l'
        = get_observations_by_lat_lon lat' lon' start' end' 0 l').
Proof.
  intros Hlisted Hn Hall. repeat split.
  - apply (observation_stream_answered lat lon start end_ 0 l link params'
             uris featuress Hlisted Hn Hall).
  - intros n lat' lon' start' end' l' Hneg.
    unfold get_observations_by_lat_lon.
    destruct (observation_stations lat' lon' l') as [[e|stations] l1];
      [reflexivity|].
    apply stations_loop_unbounded. lia.
Qed.

End StationBound.

(** ** The path of the points request *)

Lemma extends_refl (l : log) : extends l l.
Proof. exists []. now rewrite app_nil_r. Qed.

Lemma extends_trans (l1 l2 l3 : log) :
  extends l1 l2 -> extends l2 l3 -> extends l1 l3.
Proof.
  intros [r1 ->] [r2 ->]. exists (r1 ++ r2)%list. now rewrite app_assoc.
Qed.

Lemma bind_extends {A C : Type} (m : M A) (k : A -> M C) :
  (forall l, extends l (snd (m l))) ->
  (forall a l, extends l (snd (k a l))) ->
  forall l, extends l (snd (bind m k l)).
Proof.
  intros Hm Hk l. unfold bind. specialize (Hm l).
  destruct (m l) as [[e|a] l1]; simpl in *; [assumption|].
  eapply extends_trans; [exact Hm | apply Hk].
Qed.

Lemma lift_extends {A : Type} (r : result A) (l : log) :
  extends l (snd (lift r l)).
Proof. apply extends_refl. Qed.

Section PointsRequest.

Context {B : Builtins} {U : UTIL}.

Lemma make_get_request_extends (uri : value) (end_point : string) (l : log) :
  extends l (snd (make_get_request uri end_point l)).
Proof. now exists [(uri, end_point)]. Qed.

Lemma fetch_forecasts_extends (points : value) (data_type : list value) :
  forall l, extends l (snd (fetch_forecasts points data_type l)).
Proof.
  induction data_type as [|dtype rest IH]; intros l.
  - apply extends_refl.
  - cbn [fetch_forecasts]. revert l.
    apply bind_extends; [intros l; apply lift_extends|]. intros uri.
    apply bind_extends; [intros l; apply make_get_request_extends|].
    intros response.
    apply bind_extends; [exact IH|]. intros responses l. apply extends_refl.
Qed.

Lemma stations_observations_extends (station_id : value) (params : dict)
    (l : log) :
  extends l (snd (stations_observations station_id params l)).
Proof.
  unfold stations_observations.
  destruct (negb (py_truthy station_id)); [apply extends_refl|].
  destruct (dict_in "recordId" params && dict_in "current" params);
    [apply extends_refl|].
  revert l. apply bind_extends; [intros l; apply lift_extends|].
  intros params1 l.
  destruct (0 <? length params1)%nat; [|apply make_get_request_extends].
  destruct (dict_get "recordId" params1);
    [apply make_get_request_extends|].
  destruct (dict_in "current" params1); [apply make_get_request_extends|].
  revert l. apply bind_extends; [intros l; apply make_get_request_extends|].
  intros observations.
  apply bind_extends; [intros l; apply lift_extends|].
  intros [|] l; [apply lift_extends | apply extends_refl].
Qed.

Lemma station_observations_extends (params : dict) (station : value)
    (l : log) :
  extends l (snd (station_observations params station l)).
Proof.
  unfold station_observations.
  destruct (split_last station) as [e|station_id]; [apply extends_refl|].
  pose proof (stations_observations_extends (VStr station_id) params l) as H.
  destruct (stations_observations (VStr station_id) params l)
    as [[e|response] l1]; simpl in *; [assumption|].
  destruct (bindR _ py_iter); assumption.
Qed.

Lemma stations_loop_extends (params : dict) (n : Z) (stations : list value) :
  forall index l, extends l (snd (stations_loop params n index stations l)).
Proof.
  induction stations as [|station rest IH]; intros index l.
  - apply extends_refl.
  - cbn [stations_loop].
    destruct (bound_reached n index); [apply extends_refl|].
    pose proof (station_observations_extends params station l) as H.
    destruct (station_observations params station l) as [s l1].
    simpl in H. destruct (raised s); [assumption|].
    specialize (IH (S index) l1).
    destruct (stations_loop params n (S index) rest l1) as [s' l2].
    simpl in *. eapply extends_trans; eassumption.
Qed.

(** C7.  The two paths embed the coordinate differently.  For supported
    data types, the first request of [points_forecast] has the path made of
    the texts of [lat] and [long] as they were passed, with no rounding.
    The first request of the observation stream has the path made of the
    texts of [round(lat, 4)] and [round(lon, 4)]. *)
Theorem points_request_paths
    (lat lon : float) (data_type start end_ : value) (n : Z) (l : log) :
  forallb supported (as_list data_type) = true ->
  (exists rest,
     snd (points_forecast lat lon data_type l)
     = (l ++ (VStr ("/points/" ++ float_str lat ++ "," ++ float_str lon),
              DEFAULT_END_POINT) :: rest)%list)
  /\ (exists rest,
        snd (get_observations_by_lat_lon lat lon start end_ n l)
        = (l ++ (VStr ("/points/" ++ float_str (round_ndigits lat 4)
                       ++ "," ++ float_str (round_ndigits lon 4)),
                 DEFAULT_END_POINT) :: rest)%list).
Proof.
  intros Hsup. split.
  - unfold points_forecast. rewrite Hsup. cbn [negb].
    unfold bind at 1, make_get_request.
    set (r := (VStr ("/points/" ++ float_str lat ++ "," ++ float_str lon),
               DEFAULT_END_POINT)).
    destruct (transport l r) as [e|points]; [now exists []|].
    destruct (fetch_forecasts_extends points (as_list data_type)
                (l ++ [r])%list) as [rest Hrest].
    exists rest. rewrite Hrest. now rewrite <- app_assoc.
  - unfold get_observations_by_lat_lon, observation_stations, points.
    cbn [py_truthy py_str]. unfold bind at 1, make_get_request.
    fold (rounded_point lat lon).
    set (r := (VStr ("/points/" ++ rounded_point lat lon),
               DEFAULT_END_POINT)).
    destruct (transport l r) as [e|points_res]; [now exists []|].
    match goal with
    | |- context [bind ?m ?k (l ++ [r])%list] =>
        assert (Hk : extends (l ++ [r])%list
                       (snd (bind m k (l ++ [r])%list)))
    end.
    { apply bind_extends; [intros l0; apply lift_extends|].
      intros [|] l0; [apply extends_refl|].
      revert l0. apply bind_extends; [intros l0; apply lift_extends|].
      intros uri.
      apply bind_extends; [intros l0; apply make_get_request_extends|].
      intros response.
      apply bind_extends; intros; apply lift_extends. }
    match goal with
    | |- context [bind ?m ?k (l ++ [r])%list] =>
        destruct (bind m k (l ++ [r])%list) as [[e|stations] l1]
    end; simpl in Hk.
    + destruct Hk as [rest ->]. exists rest. cbn [snd].
      now rewrite <- app_assoc.
    + pose proof (stations_loop_extends
                    (stations_observations_params start end_) n stations 0 l1)
        as [rest2 Hrest2].
      destruct Hk as [rest ->]. exists (rest ++ rest2)%list.
      rewrite Hrest2. now rewrite <- !app_assoc.
Qed.

End PointsRequest.

(** ** The statements on the sample world *)

Section OnTheSample.

Import Sample.

#[local] Existing Instance Sample.builtins.
#[local] Existing Instance Sample.util.
#[local] Existing Instance Sample.geocoders.

Lemma sample_stations_listed :
  stations_listed (fst new_york) (snd new_york) []
    (VStr (Sample.gridpoint ++ "/stations")) Sample.station_uris.
Proof.
  unfold stations_listed. do 3 eexists. repeat split; reflexivity.
Qed.

Lemma sample_stations_answer :
  Forall2 (station_answers [])
          Sample.station_uris [Sample.knyc_features; Sample.klga_features].
Proof.
  constructor; [|constructor; [|constructor]];
    (split; [discriminate
            | eexists; split; [|intros l; reflexivity]; reflexivity]).
Qed.

Lemma sample_stations_answer_day :
  Forall2 (station_answers day_params')
          Sample.station_uris [Sample.knyc_features; Sample.klga_features].
Proof.
  constructor; [|constructor; [|constructor]];
    (split; [discriminate
            | eexists; split; [|intros l; reflexivity]; reflexivity]).
Qed.

Lemma timestamp_normalization_witness :
  normalize_timestamps day_params = inr day_params'
  /\ dict_get "start" day_params' = Some (VStr "2020-01-01T00:00:00Z")
  /\ dict_get "end" day_params' = Some (VStr "2020-01-01T23:59:59Z").
Proof.
  assert (H : normalize_timestamps day_params = inr day_params')
    by reflexivity.
  split; [exact H|].
  destruct (timestamp_normalization day_params day_params' H)
    as (Hs & He & _).
  split; [exact (Hs "2020-01-01" eq_refl) | exact (He "2020-01-01" eq_refl)].
Defined.

Lemma current_and_recordId_conflict_witness :
  stations_observations
    (VStr "KNYC")
    [("limit", VInt 1); ("current", VBool false);
     ("recordId", VStr "2020-01-01T00:00:00Z")] []
  = (inl (Exception (VStr "Cannot have both 'current' and 'recordId'")), []).
Proof.
  apply current_and_recordId_conflict; reflexivity.
Defined.

Lemma stations_observations_return_shape_witness :
  stations_observations (VStr "KNYC") [] []
  = make_get_request (VStr "/stations/KNYC/observations") DEFAULT_END_POINT []
  /\ stations_observations (VStr "KNYC") [("recordId", VStr "R1")] []
     = make_get_request (VStr "/stations/KNYC/observations/R1")
                        DEFAULT_END_POINT []
  /\ stations_observations (VStr "KNYC") [("current", VBool true)] []
     = make_get_request (VStr "/stations/KNYC/observations/current")
                        DEFAULT_END_POINT []
  /\ stations_observations (VStr "KNYC") day_params []
     = (inr (VList (map VDict Sample.knyc_features)),
        [(VStr ("/stations/KNYC/observations" ++ Sample.day_query),
          DEFAULT_END_POINT)])
  /\ stations_observations (VStr "KLGA") [("limit", VInt 1)] []
     = (inr (VList (map VDict Sample.klga_features)),
        [(VStr "/stations/KLGA/observations", DEFAULT_END_POINT)]).
Proof.
  split; [|split; [|split; [|split]]].
  - exact (proj1 (stations_observations_return_shape
                    (VStr "KNYC") [] [] [] eq_refl eq_refl) eq_refl).
  - exact (proj1 (proj2 (stations_observations_return_shape
                    (VStr "KNYC") [("recordId", VStr "R1")]
                    [("recordId", VStr "R1")] [] eq_refl eq_refl))
                 (VStr "R1") eq_refl eq_refl).
  - exact (proj1 (proj2 (proj2 (stations_observations_return_shape
                    (VStr "KNYC") [("current", VBool true)]
                    [("current", VBool true)] [] eq_refl eq_refl)))
                 eq_refl eq_refl).
  - refine (proj2 (proj2 (proj2 (stations_observations_return_shape
                    (VStr "KNYC") day_params day_params' [] eq_refl eq_refl)))
                  _ eq_refl eq_refl).
    discriminate.
  - refine (proj2 (proj2 (proj2 (stations_observations_return_shape
                    (VStr "KLGA") [("limit", VInt 1)] [("limit", VInt 1)] []
                    eq_refl eq_refl)))
                  _ eq_refl eq_refl).
    discriminate.
Defined.

Example get_forecasts_sample :
  get_forecasts "10001" "US" (VList [VNone; VStr "grid"; VStr "hourly"])
                false []
  = (inr ([VList [VDict [("name", VStr "Tonight")]];
           VDict [("temperature", VDict [])];
           VList [VDict [("number", VInt 1)]]], None),
     forecast_log).
Proof. reflexivity. Qed.

Lemma get_forecasts_aligned_witness :
  exists items,
    get_forecasts "10001" "US" (VList [VNone; VStr "grid"; VStr "hourly"])
                  false []
    = (inr (items, None), forecast_log)
    /\ length items = 3
    /\ exists item,
         nth_error items 1 = Some item
         /\ transport [points_request "40.75,-73.99";
                       request_of (VStr (Sample.gridpoint ++ "/forecast"))]
                      (request_of (VStr Sample.gridpoint))
            = inr (VDict [("properties", VDict [("temperature", VDict [])])])
         /\ projection_of (VStr "grid")
              (VDict [("properties", VDict [("temperature", VDict [])])])
              item.
Proof.
  assert (Hgeo : get_lat_lon_by_postalcode_country "10001" "US" false
                 = inr (40.75%float, (-73.99)%float, None)) by reflexivity.
  assert (Hsup : forallb supported
                   (as_list (VList [VNone; VStr "grid"; VStr "hourly"]))
                 = true) by reflexivity.
  assert (Hpoints : transport []
                      (VStr ("/points/" ++ float_str 40.75%float ++ ","
                             ++ float_str (-73.99)%float), DEFAULT_END_POINT)
                    = inr Sample.new_york_points) by reflexivity.
  assert (Hlinks : Forall2
            (fun dtype uri =>
               points_link Sample.new_york_points dtype = Some uri)
            (as_list (VList [VNone; VStr "grid"; VStr "hourly"]))
            [VStr (Sample.gridpoint ++ "/forecast");
             VStr Sample.gridpoint;
             VStr (Sample.gridpoint ++ "/forecast/hourly")]).
  { constructor; [reflexivity|]. constructor; [reflexivity|].
    constructor; [reflexivity|]. constructor. }
  assert (Hanswered : answered
            ([] ++ [(VStr ("/points/" ++ float_str 40.75%float ++ ","
                           ++ float_str (-73.99)%float),
                     DEFAULT_END_POINT)])%list
            [VStr (Sample.gridpoint ++ "/forecast");
             VStr Sample.gridpoint;
             VStr (Sample.gridpoint ++ "/forecast/hourly")]
            sample_forecasts).
  { split; [reflexivity|]. split; [reflexivity|]. split; [reflexivity|].
    exact I. }
  assert (Hvalid : valid_pairs
            (combine (as_list (VList [VNone; VStr "grid"; VStr "hourly"]))
                     sample_forecasts)).
  { intros dtype res [H|[H|[H|[]]]]; injection H as <- <-;
      split; reflexivity. }
  destruct (get_forecasts_aligned
              "10001" "US" (VList [VNone; VStr "grid"; VStr "hourly"])
              false [] 40.75%float (-73.99)%float None
              Sample.new_york_points _ _
              Hgeo Hsup Hpoints Hlinks Hanswered Hvalid)
    as (items & Hrun & Hlen & Hnth).
  exists items. split; [exact Hrun | split; [exact Hlen|]].
  destruct (Hnth 1 (VStr "grid") eq_refl)
    as (uri & res & item & Huri & _ & Ht & Hres & Hitem & Hp).
  injection Huri as <-. injection Hres as <-.
  exists item. split; [exact Hitem | split; [exact Ht | exact Hp]].
Defined.

(** C4, as stated, fails: the document fetched for the grid type carries
    status 503 and a detail, yet [get_forecasts] fails with the exception of
    the document fetched before it, which has no ['properties']. *)
Lemma upstream_error_masked :
  points_forecast 41.88%float (-87.62)%float
                  (VList [VStr "hourly"; VStr "grid"]) []
  = (inr [VDict [("title", VStr "Unexpected")]; VDict Sample.unavailable],
     chicago_log "/forecast/hourly")
  /\ dict_get "status" Sample.unavailable = Some (VInt 503)
  /\ dict_get "detail" Sample.unavailable
     = Some (VStr "Service Unavailable")
  /\ get_forecasts "60601" "US" (VList [VStr "hourly"; VStr "grid"]) false []
     = (inl (Exception (VStr (quoted "properties" ++
          " attribute not found. Possible response json changes"))),
        chicago_log "/forecast/hourly")
  /\ fst (get_forecasts "60601" "US" (VList [VStr "hourly"; VStr "grid"])
                        false [])
     <> inl (Exception
               (VStr ("Status: " ++ py_str (VInt 503)
                      ++ ", NOAA API Error Response: "
                      ++ py_str (VStr "Service Unavailable")))).
Proof.
  split; [reflexivity|]. split; [reflexivity|]. split; [reflexivity|].
  split; [reflexivity|]. vm_compute. discriminate.
Qed.

Lemma upstream_error_reported_witness :
  get_forecasts "60601" "US" (VList [VNone; VStr "grid"]) false []
  = (inl (Exception
            (VStr "Status: 503, NOAA API Error Response: Service Unavailable")),
     chicago_log "/forecast").
Proof.
  refine (upstream_error_reported
            "60601" "US" (VList [VNone; VStr "grid"]) false
            [] (chicago_log "/forecast") 41.88%float (-87.62)%float None
            [VNone] [] [VDict [("properties", VDict [("periods", VList [])])]]
            [] (VStr "grid") Sample.unavailable
            (VInt 503) (VStr "Service Unavailable")
            eq_refl eq_refl eq_refl eq_refl _ eq_refl eq_refl eq_refl).
  intros dtype res [H|[]]. injection H as <- <-. split; reflexivity.
Defined.

Lemma missing_properties_failures_witness :
  get_forecasts "33101" "US" (VList [VStr "grid"]) false []
  = (inl (KeyError "properties"), [points_request "25.77,-80.19"])
  /\ points_forecast (fst miami) (snd miami) (VList []) []
     = (inr [], [points_request "25.77,-80.19"])
  /\ get_observations_by_lat_lon (fst miami) (snd miami) VNone VNone 1 []
     = (Stream [] (Some (Exception
                           (VStr "Error: No Observation Stations found."))),
        [points_request "25.77,-80.19"]).
Proof.
  destruct (missing_properties_failures
              (fst miami) (snd miami)
              [("title", VStr "Data Unavailable")] [] eq_refl)
    as [Hforecast Hstream].
  destruct (Hforecast eq_refl) as (_ & Hget & Hempty).
  split; [|split].
  - exact (Hget "33101" "US" (VStr "grid") [] false None eq_refl eq_refl).
  - exact Hempty.
  - exact (Hstream eq_refl VNone VNone 1%Z).
Defined.

Lemma points_request_paths_witness :
  (exists rest,
     snd (points_forecast (fst new_york) (snd new_york) VNone [])
     = points_request "40.712776,-74.005974" :: rest)
  /\ (exists rest,
        snd (get_observations_by_lat_lon
               (fst new_york) (snd new_york) VNone VNone 1 [])
        = points_request "40.7128,-74.006" :: rest).
Proof.
  exact (points_request_paths
           (fst new_york) (snd new_york) VNone VNone VNone 1 [] eq_refl).
Defined.

(** C2, as stated, fails at [num_of_stations = 0]: the stream does not stop
    after zero stations, it fetches and yields the observations of both. *)
Lemma zero_stations_fetches_all :
  stated_bound 0 Sample.station_uris = []
  /\ get_observations_by_lat_lon
       (fst new_york) (snd new_york) VNone VNone 0 []
     = (Stream (records Sample.knyc_features ++ records Sample.klga_features)
               None,
        [points_request "40.7128,-74.006"; stations_request;
         (VStr "/stations/KNYC/observations", DEFAULT_END_POINT);
         (VStr "/stations/KLGA/observations", DEFAULT_END_POINT)])
  /\ snd (get_observations_by_lat_lon
            (fst new_york) (snd new_york) VNone VNone 0 [])
     <> ([points_request "40.7128,-74.006"; stations_request]
         ++ map (observation_request [])
                (stated_bound 0 Sample.station_uris))%list.
Proof.
  split; [reflexivity|]. split; [reflexivity|]. vm_compute. discriminate.
Qed.

Lemma observation_stream_bound_witness :
  get_observations_by_lat_lon (fst new_york) (snd new_york) VNone VNone 1 []
  = (Stream (records Sample.knyc_features) None,
     [points_request "40.7128,-74.006"; stations_request;
      (VStr "/stations/KNYC/observations", DEFAULT_END_POINT)])
  /\ get_observations_by_lat_lon
       (fst new_york) (snd new_york)
       (VStr "2020-01-01") (VStr "2020-01-01") (-1) []
     = (Stream (records Sample.knyc_features ++ records Sample.klga_features)
               None,
        [points_request "40.7128,-74.006"; stations_request;
         (VStr ("/stations/KNYC/observations" ++ Sample.day_query),
          DEFAULT_END_POINT);
         (VStr ("/stations/KLGA/observations" ++ Sample.day_query),
          DEFAULT_END_POINT)]).
Proof.
  split.
  - exact (proj1 (observation_stream_bound
                    (fst new_york) (snd new_york) VNone VNone 1 [] _ [] _ _
                    sample_stations_listed eq_refl sample_stations_answer)
                 eq_refl).
  - refine (proj1 (proj2 (observation_stream_bound
                    (fst new_york) (snd new_york)
                    (VStr "2020-01-01") (VStr "2020-01-01") (-1) [] _
                    day_params' _ _
                    sample_stations_listed eq_refl
                    sample_stations_answer_day)) _).
    discriminate.
Defined.

Lemma zero_stations_is_no_bound_witness :
  get_observations_by_lat_lon (fst new_york) (snd new_york) VNone VNone 0 []
  = (Stream (records Sample.knyc_features ++ records Sample.klga_features)
            None,
     [points_request "40.7128,-74.006"; stations_request;
      (VStr "/stations/KNYC/observations", DEFAULT_END_POINT);
      (VStr "/stations/KLGA/observations", DEFAULT_END_POINT)]).
Proof.
  exact (proj1 (zero_stations_is_no_bound
                  (fst new_york) (snd new_york) VNone VNone [] _ [] _ _
                  sample_stations_listed eq_refl sample_stations_answer)).
Defined.

End OnTheSample.

(** * Further properties *)

(** ** Coordinates and data types *)

Section Resolution.

Context {B : Builtins} {U : UTIL} {Geo : Geocoders}.

(** X1.  A coordinate that [get_lat_lon_by_postalcode_country] returns is
    the one of the geocoder of the country: for the US both [lat] and [lng]
    of the ZIP-code record are present, for any other country neither the
    latitude nor the longitude is NaN; the lookup-result object comes with it
    exactly when it was asked for. *)
Theorem resolved_coordinate_sound
    (postal_code country : string) (flag : bool)
    (lat lon : float) (result_object : option geo_result) :
  get_lat_lon_by_postalcode_country postal_code country flag
  = inr (lat, lon, result_object) ->
  if String.eqb country "US" then
    exists z,
      by_zipcode postal_code = inr z
      /\ zip_lat z = Some lat /\ zip_lng z = Some lon
      /\ result_object = (if flag then Some (ZipResult z) else None)
  else
    exists q,
      query_postal_code country postal_code = inr q
      /\ latitude q = lat /\ longitude q = lon
      /\ PrimFloat.is_nan lat = false /\ PrimFloat.is_nan lon = false
      /\ result_object = (if flag then Some (PostalResult q) else None).
Proof.
  unfold get_lat_lon_by_postalcode_country.
  destruct (String.eqb country "US").
  - destruct (by_zipcode postal_code) as [e|z]; simpl; [discriminate|].
    destruct (zip_lat z) as [a|] eqn:Ea; [|discriminate].
    destruct (zip_lng z) as [b|] eqn:Eb; [|discriminate].
    intros [= <- <- <-]. now exists z.
  - destruct (query_postal_code country postal_code) as [e|q]; simpl;
      [discriminate|].
    destruct (PrimFloat.is_nan (latitude q)) eqn:Ea; [discriminate|].
    destruct (PrimFloat.is_nan (longitude q)) eqn:Eb; [discriminate|].
    simpl. intros [= <- <- <-]. now exists q.
Qed.

(** X2.  When the geocoder has no coordinate for the postal code,
    [get_forecasts] fails with [InvalidZipCodeError] and issues no request,
    whatever the data type, and [get_observations] fails when it is called:
    no generator is returned. *)
Theorem invalid_postal_code_no_request (postal_code country : string) :
  no_coordinate postal_code country ->
  (forall data_type flag l,
     get_forecasts postal_code country data_type flag l
     = (inl (InvalidZipCodeError "Invalid ZIP Code"), l))
  /\ (forall start end_ num_of_stations,
        get_observations postal_code country start end_ num_of_stations
        = inl (InvalidZipCodeError "Invalid ZIP Code")).
Proof.
  intros H.
  assert (Hgeo : forall flag,
            get_lat_lon_by_postalcode_country postal_code country flag
            = inl (InvalidZipCodeError "Invalid ZIP Code")).
  { intros flag. unfold no_coordinate in H.
    unfold get_lat_lon_by_postalcode_country.
    destruct (String.eqb country "US").
    - destruct H as (z & -> & [Hz|Hz]); simpl; rewrite Hz;
        [reflexivity | destruct (zip_lat z); reflexivity].
    - destruct H as (q & -> & [Hq|Hq]); simpl; rewrite Hq;
        [reflexivity | now rewrite orb_true_r]. }
  split.
  - intros data_type flag l. unfold get_forecasts, bind, lift.
    now rewrite Hgeo.
  - intros start end_ n. unfold get_observations. now rewrite Hgeo.
Qed.

(** X3.  A data type other than ["hourly"], ["grid"] and [None] anywhere in
    the request makes [points_forecast] fail with [AssertionError] before any
    request is issued; [get_forecasts] does the same once the coordinate is
    resolved. *)
Theorem unsupported_type_no_request (data_type : value) :
  forallb supported (as_list data_type) = false ->
  (forall lat lon l,
     points_forecast lat lon data_type l = (inl AssertionError, l))
  /\ (forall postal_code country flag lat lon result_object l,
        get_lat_lon_by_postalcode_country postal_code country flag
        = inr (lat, lon, result_object) ->
        get_forecasts postal_code country data_type flag l
        = (inl AssertionError, l)).
Proof.
  intros H. split.
  - intros lat lon l. unfold points_forecast. now rewrite H.
  - intros postal_code country flag lat lon result_object l Hgeo.
    unfold get_forecasts, bind, lift. rewrite Hgeo.
    unfold points_forecast. cbn [as_list]. now rewrite H.
Qed.

End Resolution.

(** ** The requests and the validation of the forecast path *)

Section ForecastPath.

Context {B : Builtins} {U : UTIL} {Geo : Geocoders}.

Lemma forecast_uri_selected (pd props : dict) (forecast hourly grid : value)
    (dtype : value) :
  dict_get "properties" pd = Some (VDict props) ->
  dict_get "forecast" props = Some forecast ->
  dict_get "forecastHourly" props = Some hourly ->
  dict_get "forecastGridData" props = Some grid ->
  forecast_uri (VDict pd) dtype
  = inr (selected_link forecast hourly grid dtype).
Proof.
  intros Hp Hf Hh Hg. unfold forecast_uri, selected_link, py_getitem.
  rewrite Hp. cbn [bindR]. rewrite Hf. cbn [bindR].
  destruct (py_eq_str dtype "hourly"); [now rewrite Hh|].
  destruct (py_eq_str dtype "grid"); [now rewrite Hg | reflexivity].
Qed.

Lemma forecast_uris_selected (pd props : dict)
    (forecast hourly grid : value) (data_type : list value) :
  dict_get "properties" pd = Some (VDict props) ->
  dict_get "forecast" props = Some forecast ->
  dict_get "forecastHourly" props = Some hourly ->
  dict_get "forecastGridData" props = Some grid ->
  Forall2 (fun dtype uri => forecast_uri (VDict pd) dtype = inr uri)
          data_type (map (selected_link forecast hourly grid) data_type).
Proof.
  intros Hp Hf Hh Hg.
  induction data_type as [|dtype rest IH]; constructor; [|exact IH].
  now apply (forecast_uri_selected pd props).
Qed.

(** The loop stops at the first request that fails: the types before it
    were requested and answered, the failing request is the last of the
    log, and no type after it is requested. *)
Lemma fetch_forecasts_first_failure (points : value)
    (before uris : list value) (dtype uri : value) (after : list value)
    (e : exn) :
  Forall2 (fun dtype uri => forecast_uri points dtype = inr uri)
          before uris ->
  forecast_uri points dtype = inr uri ->
  forall (docs : list value) (l : log),
    answered l uris docs ->
    transport (l ++ map request_of uris)%list (request_of uri) = inl e ->
    fetch_forecasts points (before ++ dtype :: after)%list l
    = (inl e, (l ++ map request_of uris ++ [request_of uri])%list).
Proof.
  intros Hlinks Huri.
  induction Hlinks as [|dt u rest uris Hu Hlinks IH]; intros docs l.
  - destruct docs; [|contradiction]. intros _.
    cbn [map List.app]. rewrite app_nil_r. intros Hfail.
    now rewrite (fetch_forecasts_step _ _ _ _ _ Huri), Hfail.
  - destruct docs as [|doc docs]; [contradiction|]. intros [Ht Hrest] Hfail.
    cbn [map] in Hfail.
    replace (l ++ request_of u :: map request_of uris)%list
      with ((l ++ [request_of u]) ++ map request_of uris)%list in Hfail
      by now rewrite <- app_assoc.
    cbn [List.app].
    rewrite (fetch_forecasts_step _ _ _ _ _ Hu), Ht.
    rewrite (IH docs _ Hrest Hfail). cbn [map List.app].
    now rewrite <- app_assoc.
Qed.

(** X4.  On a points document whose [properties] hold the three forecast
    links, the requests of [points_forecast] are determined by the answers
    of the transport.  Each type selects its link ([forecastHourly] for
    ["hourly"], [forecastGridData] for ["grid"], [forecast] otherwise).
    When the transport answers the request for the link of every requested
    type, issued in the order requested after the points request,
    [points_forecast] returns exactly these answers, in that order, and its
    log is the points request followed by exactly one request per type.
    When the transport answers the types before some type and fails on that
    type, [points_forecast] fails with that failure, and its log ends with
    the failing request: the types after it are never requested. *)
Theorem points_forecast_requests
    (lat lon : float) (data_type : value) (l : log)
    (pd props : dict) (forecast hourly grid : value) :
  forallb supported (as_list data_type) = true ->
  transport l (VStr ("/points/" ++ float_str lat ++ "," ++ float_str lon),
               DEFAULT_END_POINT) = inr (VDict pd) ->
  dict_get "properties" pd = Some (VDict props) ->
  dict_get "forecast" props = Some forecast ->
  dict_get "forecastHourly" props = Some hourly ->
  dict_get "forecastGridData" props = Some grid ->
  let select := selected_link forecast hourly grid in
  let after_points :=
    (l ++ [(VStr ("/points/" ++ float_str lat ++ "," ++ float_str lon),
            DEFAULT_END_POINT)])%list in
  (forall docs,
     answered after_points (map select (as_list data_type)) docs ->
     points_forecast lat lon data_type l
     = (inr docs,
        (after_points
           ++ map (fun dtype => (select dtype, DEFAULT_END_POINT))
                  (as_list data_type))%list))
  /\ (forall before dtype after docs e,
        as_list data_type = (before ++ dtype :: after)%list ->
        answered after_points (map select before) docs ->
        transport (after_points
                     ++ map (fun dtype => (select dtype, DEFAULT_END_POINT))
                            before)%list
                  (select dtype, DEFAULT_END_POINT) = inl e ->
        points_forecast lat lon data_type l
        = (inl e,
           (after_points
              ++ map (fun dtype => (select dtype, DEFAULT_END_POINT)) before
              ++ [(select dtype, DEFAULT_END_POINT)])%list)).
Proof.
  intros Hsup Ht Hp Hf Hh Hg select after_points.
  assert (Hrun : points_forecast lat lon data_type l
                 = fetch_forecasts (VDict pd) (as_list data_type)
                                   after_points).
  { unfold points_forecast. rewrite Hsup. cbn [negb].
    unfold bind, make_get_request. now rewrite Ht. }
  assert (Hmap : forall dts,
            map (fun dtype => (select dtype, DEFAULT_END_POINT)) dts
            = map request_of (map select dts)).
  { intros dts. now rewrite map_map. }
  rewrite Hrun. split.
  - intros docs Hanswered. rewrite Hmap.
    apply fetch_forecasts_answered; [|exact Hanswered].
    now apply (forecast_uris_selected pd props).
  - intros before dtype after docs e Hsplit Hanswered Hfail.
    rewrite Hsplit, Hmap. rewrite Hmap in Hfail.
    apply (fetch_forecasts_first_failure (VDict pd) before
             (map select before) dtype (select dtype) after e
             (forecast_uris_selected pd props forecast hourly grid before
                Hp Hf Hh Hg)
             (forecast_uri_selected pd props forecast hourly grid dtype
                Hp Hf Hh Hg)
             docs after_points Hanswered Hfail).
Qed.

(** X5.  The [forecast] link is read for every data type: on a points
    document whose [properties] have no ['forecast'] key, a request for any
    supported type, the grid type included, fails with [KeyError] after the
    points request alone, even when the link of the requested type is
    there. *)
Theorem forecast_link_always_read
    (lat lon : float) (dtype : value) (rest : list value) (l : log)
    (pd props : dict) :
  forallb supported (dtype :: rest) = true ->
  transport l (VStr ("/points/" ++ float_str lat ++ "," ++ float_str lon),
               DEFAULT_END_POINT) = inr (VDict pd) ->
  dict_get "properties" pd = Some (VDict props) ->
  dict_get "forecast" props = None ->
  points_forecast lat lon (VList (dtype :: rest)) l
  = (inl (KeyError "forecast"),
     (l ++ [(VStr ("/points/" ++ float_str lat ++ "," ++ float_str lon),
             DEFAULT_END_POINT)])%list).
Proof.
  intros Hsup Ht Hp Hf. unfold points_forecast.
  cbn [as_list]. rewrite Hsup. cbn [negb].
  unfold bind, make_get_request. rewrite Ht.
  cbn [fetch_forecasts]. unfold bind, lift, forecast_uri, py_getitem.
  rewrite Hp. cbn [bindR]. rewrite Hf. reflexivity.
Qed.

Lemma forecast_results_first_failure
    (before after docs_before docs_after : list value)
    (dtype res : value) (e : exn) :
  length before = length docs_before ->
  valid_pairs (combine before docs_before) ->
  validate_forecast dtype res = inl e ->
  forecast_results (combine (before ++ dtype :: after)
                            (docs_before ++ res :: docs_after))
  = inl e.
Proof.
  intros Hlen Hvalid He. revert docs_before Hlen Hvalid.
  induction before as [|dt before IH]; intros [|r docs_before] Hlen Hvalid;
    try discriminate.
  - simpl. now rewrite He.
  - simpl. injection Hlen as Hlen.
    destruct (Hvalid dt r (or_introl eq_refl)) as [Hdoc Hval].
    destruct (validated_projection _ _ Hdoc Hval) as (item & Hitem & _).
    unfold passes_validation in Hval.
    destruct (validate_forecast dt r); [discriminate|]. simpl.
    rewrite Hitem. simpl. rewrite IH; [reflexivity | assumption |].
    intros dt' res' Hin. apply Hvalid. now right.
Qed.

Lemma validate_typed (dtype : value) (d : dict) :
  upstream_marker d = false ->
  validate_forecast dtype (VDict d)
  = match dict_get "properties" d with
    | None => inl (Exception properties_message)
    | Some properties =>
        let? no_periods :=
          andR (notR (py_in "periods" properties))
               (inr (negb (py_eq_str dtype "grid"))) in
        if no_periods then inl (Exception periods_message) else inr tt
    end.
Proof.
  unfold upstream_marker, validate_forecast, py_in, py_getitem, dict_in,
    andR, notR, properties_message, periods_message.
  intros Hm. cbn [bindR].
  destruct (dict_get "status" d) as [status|]; cbn [bindR].
  - destruct (py_eq_503 status); cbn [bindR andb] in *.
    + destruct (dict_get "detail" d); [discriminate|]. cbn [bindR].
      destruct (dict_get "properties" d); reflexivity.
    + destruct (dict_get "properties" d); reflexivity.
  - destruct (dict_get "properties" d); reflexivity.
Qed.

(** X6.  The fetched documents are validated in the order of the request
    and the first failure is the outcome: when the documents before it are
    forecast documents that pass, [get_forecasts] raises the exception of
    the first document that fails the checks, whatever the later documents
    hold, and returns no item. *)
Theorem first_validation_failure
    (postal_code country : string) (data_type : value) (flag : bool)
    (l l' : log) (lat lon : float) (result_object : option geo_result)
    (before after docs_before docs_after : list value)
    (dtype res : value) (e : exn) :
  get_lat_lon_by_postalcode_country postal_code country flag
  = inr (lat, lon, result_object) ->
  as_list data_type = (before ++ dtype :: after)%list ->
  points_forecast lat lon (VList (as_list data_type)) l
  = (inr (docs_before ++ res :: docs_after)%list, l') ->
  length before = length docs_before ->
  valid_pairs (combine before docs_before) ->
  validate_forecast dtype res = inl e ->
  get_forecasts postal_code country data_type flag l = (inl e, l').
Proof.
  intros Hgeo Hsplit Hfetch Hlen Hvalid He.
  unfold get_forecasts, bind, lift, ret.
  rewrite Hgeo, Hfetch, Hsplit.
  now rewrite (forecast_results_first_failure _ _ _ _ _ _ e).
Qed.

(** X7.  For a request of one data type whose fetched document is an object
    without the upstream error marker: with no ['properties'] key
    [get_forecasts] raises the properties-not-found exception; with a
    [properties] object it returns that object for the grid type, with or
    without ['periods'], and for any other type returns the value under
    ['periods'] or, when that key is missing, raises the periods-not-found
    exception.  A status 503 with no detail is not an error. *)
Theorem single_forecast_outcome
    (postal_code country : string) (data_type dtype : value) (flag : bool)
    (l l' : log) (lat lon : float) (result_object : option geo_result)
    (d : dict) :
  get_lat_lon_by_postalcode_country postal_code country flag
  = inr (lat, lon, result_object) ->
  as_list data_type = [dtype] ->
  points_forecast lat lon (VList [dtype]) l = (inr [VDict d], l') ->
  upstream_marker d = false ->
  (dict_get "properties" d = None ->
   get_forecasts postal_code country data_type flag l
   = (inl (Exception properties_message), l'))
  /\ (forall p,
        dict_get "properties" d = Some (VDict p) ->
        get_forecasts postal_code country data_type flag l
        = (if py_eq_str dtype "grid" then inr ([VDict p], result_object)
           else match dict_get "periods" p with
                | Some periods => inr ([periods], result_object)
                | None => inl (Exception periods_message)
                end,
           l')).
Proof.
  intros Hgeo Hone Hfetch Hm.
  assert (Hrun : get_forecasts postal_code country data_type flag l
                 = (let? to_return := forecast_results [(dtype, VDict d)] in
                    inr (to_return, result_object), l')).
  { unfold get_forecasts, bind, lift, ret. rewrite Hgeo, Hone, Hfetch.
    cbn [combine]. destruct (forecast_results [(dtype, VDict d)]);
      reflexivity. }
  rewrite Hrun. cbn [forecast_results]. rewrite (validate_typed _ _ Hm).
  split.
  - intros Hp. now rewrite Hp.
  - intros p Hp. rewrite Hp.
    unfold project_forecast, py_in, py_getitem, dict_in, andR, notR.
    rewrite Hp. cbn [bindR].
    destruct (py_eq_str dtype "grid"); cbn [bindR negb].
    + destruct (dict_get "periods" p); reflexivity.
    + destruct (dict_get "periods" p); reflexivity.
Qed.

End ForecastPath.

(** ** Parameters of [stations_observations] *)

Lemma append_length (s t : string) :
  String.length (s ++ t) = String.length s + String.length t.
Proof. induction s; simpl; auto. Qed.

Lemma substring_prefix_length (n : nat) (s : string) :
  String.length (substring 0 n s) = Nat.min n (String.length s).
Proof.
  revert s. induction n as [|n IH]; intros [|c s]; simpl; auto.
Qed.

Lemma replace_length (a b : ascii) (s : string) :
  String.length (replace a b s) = String.length s.
Proof. induction s; simpl; auto. Qed.

Lemma dict_set_keys (k : string) (v : value) (d : dict) :
  dict_in k d = true -> map fst (dict_set k v d) = map fst d.
Proof.
  unfold dict_in. induction d as [|[k' v'] d IH]; simpl; [discriminate|].
  destruct (String.eqb k k'); simpl; [reflexivity|].
  intros H. now rewrite IH.
Qed.

Section ObservationParameters.

Context {B : Builtins} {U : UTIL}.

Lemma normalize_timestamp_keys (key suffix : string) (params params' : dict) :
  normalize_timestamp key suffix params = inr params' ->
  map fst params' = map fst params.
Proof.
  unfold normalize_timestamp. intros H.
  destruct (dict_get key params) as [[| | | |s| |]|] eqn:E;
    try discriminate; [|now injection H as <-].
  destruct (parse_param_timestamp s); simpl in H; [discriminate|].
  injection H as <-. apply dict_set_keys. unfold dict_in. now rewrite E.
Qed.

(** X8.  Accepting the timestamps changes nothing but the values under
    ['start'] and ['end']: the keys of the mapping stay the same, in the
    same order, and every other key keeps its value. *)
Theorem normalization_keeps_other_parameters (params params' : dict) :
  normalize_timestamps params = inr params' ->
  map fst params' = map fst params
  /\ forall k, k <> "start" -> k <> "end" ->
               dict_get k params' = dict_get k params.
Proof.
  intros H. split.
  - apply normalize_timestamps_inv in H as (params1 & H1 & H2).
    rewrite (normalize_timestamp_keys _ _ _ _ H2).
    apply (normalize_timestamp_keys _ _ _ _ H1).
  - intros k Hs He. now apply normalize_timestamps_other.
Qed.

(** X9.  Padding a timestamp text of at least 10 characters gives a text of
    at least 20 characters that a second padding, with either suffix, leaves
    as it is.  A text shorter than 10 characters only grows by the suffix,
    and of a text shorter than 19 characters only the first 10 characters
    count: what follows them is dropped. *)
Theorem pad_timestamp_complete_and_stable (suffix : string) :
  String.length suffix = 10 ->
  (forall s,
     10 <= String.length s ->
     20 <= String.length (pad_timestamp suffix s)
     /\ forall suffix',
          pad_timestamp suffix' (pad_timestamp suffix s)
          = pad_timestamp suffix s)
  /\ (forall s,
        String.length s < 10 ->
        String.length (pad_timestamp suffix s) = String.length s + 10)
  /\ (forall s t,
        String.length s < 19 -> String.length t < 19 ->
        substring 0 10 s = substring 0 10 t ->
        pad_timestamp suffix s = pad_timestamp suffix t).
Proof.
  intros Hsuffix. split; [|split].
  - intros s Hs.
    assert (Hlen : 20 <= String.length (pad_timestamp suffix s)).
    { unfold pad_timestamp.
      destruct (Nat.ltb_spec (String.length s) 19).
      - rewrite append_length, substring_prefix_length, Hsuffix. lia.
      - destruct (Nat.ltb_spec (String.length s) 20); [|lia].
        rewrite append_length, replace_length. simpl. lia. }
    split; [exact Hlen|]. intros suffix'.
    now apply pad_timestamp_complete.
  - intros s Hs. unfold pad_timestamp.
    destruct (Nat.ltb_spec (String.length s) 19); [|lia].
    rewrite append_length, substring_prefix_length, Hsuffix. lia.
  - intros s t Hs Ht Heq. unfold pad_timestamp.
    destruct (Nat.ltb_spec (String.length s) 19); [|lia].
    destruct (Nat.ltb_spec (String.length t) 19); [|lia].
    now rewrite Heq.
Qed.

(** X10.  [stations_observations] fails before any request is issued when
    the station identifier is empty, whatever the parameters, and when the
    parser rejects the text under ['start'] or, ['start'] being absent or
    accepted, the text under ['end']: the parser's exception is the outcome
    in every mode, ['recordId'] and ['current'] included. *)
Theorem stations_observations_fails_early
    (station_id : value) (params : dict) (l : log) :
  (py_truthy station_id = false ->
   stations_observations station_id params l
   = (inl (Exception (VStr "'station_id' is required.")), l))
  /\ (py_truthy station_id = true ->
      dict_in "recordId" params && dict_in "current" params = false ->
      (forall s e,
         dict_get "start" params = Some (VStr s) ->
         parse_param_timestamp s = inl e ->
         stations_observations station_id params l = (inl e, l))
      /\ (forall params1 s e,
            normalize_timestamp "start" "T00:00:00Z" params = inr params1 ->
            dict_get "end" params = Some (VStr s) ->
            parse_param_timestamp s = inl e ->
            stations_observations station_id params l = (inl e, l))).
Proof.
  split.
  - intros Hid. unfold stations_observations. now rewrite Hid.
  - intros Hid Hmodes.
    assert (Hrun : forall e, normalize_timestamps params = inl e ->
                     stations_observations station_id params l = (inl e, l)).
    { intros e He. unfold stations_observations.
      rewrite Hid, Hmodes. cbn [negb]. unfold bind, lift. now rewrite He. }
    split.
    + intros s e Hs He. apply Hrun.
      unfold normalize_timestamps, normalize_timestamp.
      now rewrite Hs, He.
    + intros params1 s e H1 Hs He. apply Hrun.
      unfold normalize_timestamps. rewrite H1. cbn [bindR].
      unfold normalize_timestamp.
      rewrite (normalize_timestamp_other _ _ "end" _ _ H1) by discriminate.
      now rewrite Hs, He.
Qed.

(** X11.  In the query mode the parameters reach the request only when
    there are at least two of them: with exactly one parameter (neither
    ['recordId'] nor ['current']) the request is the plain observations path
    and the parameter is not sent; with two or more the path is followed by
    the encoding of the normalised mapping. *)
Theorem query_string_needs_two_parameters
    (station_id : value) (params params' : dict) (l : log) :
  py_truthy station_id = true ->
  normalize_timestamps params = inr params' ->
  dict_get "recordId" params = None ->
  dict_in "current" params = false ->
  (length params = 1 ->
   snd (stations_observations station_id params l)
   = (l ++ [(VStr (observations_uri station_id), DEFAULT_END_POINT)])%list)
  /\ (2 <= length params ->
      snd (stations_observations station_id params l)
      = (l ++ [(VStr (observations_uri station_id ++ "?"
                      ++ urlencode params'),
                DEFAULT_END_POINT)])%list).
Proof.
  intros Hid Hn Hr Hc.
  pose proof (normalize_timestamps_length _ _ Hn) as Hlen.
  split; intros Hl.
  - assert (Hne : params <> []) by (intros ->; discriminate Hl).
    rewrite (stations_observations_query _ _ _ _ Hid Hn Hne Hr Hc).
    unfold query_uri. rewrite Hlen, Hl. reflexivity.
  - assert (Hne : params <> []) by (intros ->; simpl in Hl; lia).
    rewrite (stations_observations_query _ _ _ _ Hid Hn Hne Hr Hc).
    unfold query_uri. rewrite Hlen.
    destruct (Nat.ltb_spec 1 (length params)); [reflexivity | lia].
Qed.

End ObservationParameters.

(** ** The other endpoints *)

Lemma dict_get_del_eq (k : string) (d : dict) :
  dict_get k (dict_del k d) = None.
Proof.
  induction d as [|[k' v'] d IH]; simpl; [reflexivity|].
  destruct (String.eqb k k') eqn:E; simpl; [assumption|]. now rewrite E.
Qed.

Lemma dict_get_del_neq (k k' : string) (d : dict) :
  k <> k' -> dict_get k' (dict_del k d) = dict_get k' d.
Proof.
  intros Hne. induction d as [|[k0 v0] d IH]; simpl; [reflexivity|].
  destruct (String.eqb_spec k k0); simpl.
  - subst k0. destruct (String.eqb_spec k' k); congruence.
  - now rewrite IH.
Qed.

Section OtherEndpoints.

Context {B : Builtins} {U : UTIL}.

(** X12.  [stations] sends a ['station_id'] under the name ['id']: the
    encoded mapping has no ['station_id'], holds the station identifier
    under ['id'] (in place of an ['id'] that was passed as well), and has
    every other parameter with its value.  Without ['station_id'] the
    mapping is encoded as it is, and with no parameter at all the path has no
    query string. *)
Theorem stations_sends_station_id_as_id (params : dict) (l : log) :
  (params = [] ->
   stations params l
   = make_get_request (VStr "/stations") DEFAULT_END_POINT l)
  /\ (params <> [] -> dict_get "station_id" params = None ->
      stations params l
      = make_get_request (VStr ("/stations?" ++ urlencode params))
                         DEFAULT_END_POINT l)
  /\ (forall station_id,
        dict_get "station_id" params = Some station_id ->
        exists sent,
          stations params l
          = make_get_request (VStr ("/stations?" ++ urlencode sent))
                             DEFAULT_END_POINT l
          /\ dict_get "station_id" sent = None
          /\ dict_get "id" sent = Some station_id
          /\ forall k, k <> "id" -> k <> "station_id" ->
                       dict_get k sent = dict_get k params).
Proof.
  split; [|split].
  - now intros ->.
  - intros Hne Hs. unfold stations. rewrite Hs.
    destruct params; [contradiction | reflexivity].
  - intros station_id Hs.
    exists (dict_del "station_id" (dict_set "id" station_id params)).
    split; [|split; [|split]].
    + unfold stations. rewrite Hs.
      destruct params; [discriminate | reflexivity].
    + apply dict_get_del_eq.
    + rewrite dict_get_del_neq by discriminate. apply dict_get_set_eq.
    + intros k Hid Hsid.
      rewrite dict_get_del_neq by congruence.
      apply dict_get_set_neq. congruence.
Qed.

(** X13.  [products_types] looks at the presence of its three keys, not at
    their values.  With ['locations'] and no ['type_id'] it raises the
    missing-type exception and issues no request.  Without ['locations'] a
    ['location_id'] has no effect: the path is the one of the type, or the
    list of types.  With ['locations'] and a ['type_id'] the path is the
    locations of the type, followed by the ['location_id'] when there is
    one. *)
Theorem products_types_dispatch (params : dict) (l : log) :
  (dict_in "locations" params = true ->
   dict_get "type_id" params = None ->
   products_types params l
   = (inl (Exception (VStr "Error: Missing type id (type_id=None)")), l))
  /\ (dict_in "locations" params = false ->
      products_types params l
      = make_get_request
          (VStr match dict_get "type_id" params with
                | Some type_id => "/products/types/" ++ py_str type_id
                | None => "/products/types"
                end)
          DEFAULT_END_POINT l)
  /\ (dict_in "locations" params = true ->
      forall type_id,
        dict_get "type_id" params = Some type_id ->
        products_types params l
        = make_get_request
            (VStr match dict_get "location_id" params with
                  | Some location_id =>
                      "/products/types/" ++ py_str type_id ++ "/locations/"
                      ++ py_str location_id
                  | None =>
                      "/products/types/" ++ py_str type_id ++ "/locations"
                  end)
            DEFAULT_END_POINT l).
Proof.
  split; [|split].
  - intros Hl Ht. unfold products_types, dict_in in *.
    rewrite Ht. simpl.
    destruct (dict_get "locations" params); [reflexivity | discriminate].
  - intros Hl. unfold products_types. rewrite Hl. unfold dict_in.
    destruct (dict_get "type_id" params); reflexivity.
  - intros Hl type_id Ht. unfold products_types. rewrite Hl.
    unfold dict_in. rewrite Ht. simpl.
    destruct (dict_get "location_id" params); reflexivity.
Qed.

(** X14.  The plain endpoints do not touch the response: [points],
    [stations], [products], [products_locations], [offices], [zones],
    [alerts] and [active_alerts] each issue exactly one request, to a text
    path at the default end point, whatever their arguments, and their outcome
    is the document the transport returns or the exception it raises. *)
Theorem plain_endpoints_single_request :
  (forall point stations_flag, single_request (points point stations_flag))
  /\ (forall params, single_request (stations params))
  /\ (forall id, single_request (products id))
  /\ (forall params, single_request (products_locations params))
  /\ (forall office_id, single_request (offices office_id))
  /\ (forall type zone_id forecast,
        single_request (zones type zone_id forecast))
  /\ (forall params, single_request (alerts params))
  /\ (forall count params, single_request (active_alerts count params)).
Proof.
  unfold single_request.
  split; [|split; [|split; [|split; [|split; [|split; [|split]]]]]].
  - intros point flag. unfold points.
    destruct (py_truthy flag); eexists; intros l; reflexivity.
  - intros params. unfold stations.
    destruct (0 <? length params)%nat; eexists; intros l; reflexivity.
  - intros id. eexists; intros l; reflexivity.
  - intros params. unfold products_locations.
    destruct (dict_get "location_id" params); eexists; intros l; reflexivity.
  - intros office_id. eexists; intros l; reflexivity.
  - intros type zone_id forecast. unfold zones.
    destruct (py_truthy forecast); eexists; intros l; reflexivity.
  - intros params. unfold alerts.
    destruct (dict_get "alert_id" params); eexists; intros l; reflexivity.
  - intros count params. unfold active_alerts.
    destruct (py_truthy count); [eexists; intros l; reflexivity|].
    destruct (dict_get "zone_id" params); [eexists; intros l; reflexivity|].
    destruct (dict_get "area" params); [eexists; intros l; reflexivity|].
    destruct (dict_get "region" params); eexists; intros l; reflexivity.
Qed.

End OtherEndpoints.

(** ** Failures in the middle of the observation stream *)

Section StreamFailures.

Context {B : Builtins} {U : UTIL}.

Lemma station_observations_run
    (start end_ : value) (params' : dict) (s : string) (l : log) :
  normalize_timestamps (stations_observations_params start end_)
  = inr params' ->
  station_id_of s <> EmptyString ->
  station_observations (stations_observations_params start end_) (VStr s) l
  = (match (match stations_observations_params start end_ with
            | [] => transport l (observation_request params' s)
            | _ => features_of (transport l (observation_request params' s))
            end) with
     | inl e => Stream [] (Some e)
     | inr response =>
         match bindR (match response with
                      | VDict _ => py_getitem response "features"
                      | _ => inr response
                      end) py_iter with
         | inl e => Stream [] (Some e)
         | inr items => yield_properties items
         end
     end,
     (l ++ [observation_request params' s])%list).
Proof.
  intros Hn Hid.
  assert (Htruthy : py_truthy (VStr (station_id_of s)) = true).
  { simpl. destruct (String.eqb_spec (station_id_of s) ""); [contradiction|].
    reflexivity. }
  destruct (stations_observations_params_modes start end_) as [Hr Hc].
  unfold station_observations. cbn [split_last]. fold (station_id_of s).
  destruct (stations_observations_params start end_) as [|kv params] eqn:Ep.
  - rewrite (stations_observations_plain _ _ Htruthy).
    unfold normalize_timestamps, normalize_timestamp in Hn. simpl in Hn.
    injection Hn as <-. unfold make_get_request.
    unfold observation_request, query_uri. simpl length. cbn [Nat.ltb Nat.leb].
    destruct (transport l _) as [e|response]; [reflexivity|].
    destruct (bindR _ py_iter); reflexivity.
  - rewrite (stations_observations_query _ _ _ _ Htruthy Hn)
      by (assumption || discriminate).
    unfold observation_request.
    destruct (features_of _) as [e|response]; [reflexivity|].
    destruct (bindR _ py_iter); reflexivity.
Qed.

Lemma stations_loop_failing
    (start end_ : value) (params' : dict) (n : Z)
    (good : list string) (featuress : list (list dict))
    (bad : value) (rest : list value)
    (ys : list value) (e : exn) (r : request) :
  normalize_timestamps (stations_observations_params start end_)
  = inr params' ->
  Forall2 (station_answers params') good featuress ->
  (forall l0,
     station_observations (stations_observations_params start end_) bad l0
     = (Stream ys (Some e), (l0 ++ [r])%list)) ->
  forall (index : nat) (l : log),
    (n <= 0 \/ Z.of_nat (index + length good) < n)%Z ->
    stations_loop (stations_observations_params start end_) n index
                  (map VStr good ++ bad :: rest) l
    = (Stream (concat (map records featuress) ++ ys) (Some e),
       (l ++ map (observation_request params') good ++ [r])%list).
Proof.
  intros Hn Hall Hbad.
  induction Hall as [|s features good featuress Hs Hall IH];
    intros index l Hbound.
  - cbn [map app stations_loop length] in *.
    assert (Hb : bound_reached n index = false).
    { unfold bound_reached. destruct (Z.ltb_spec 0 n); [|reflexivity].
      destruct (Z.leb_spec n (Z.of_nat index)); [lia | reflexivity]. }
    rewrite Hb, Hbad. reflexivity.
  - cbn [map app stations_loop length] in *.
    assert (Hb : bound_reached n index = false).
    { unfold bound_reached. destruct (Z.ltb_spec 0 n); [|reflexivity].
      destruct (Z.leb_spec n (Z.of_nat index)); [lia | reflexivity]. }
    rewrite Hb.
    rewrite (station_observations_answered _ _ _ _ _ _ Hn Hs).
    cbn [raised yielded].
    rewrite (IH (S index)) by (destruct Hbound; [left | right]; lia).
    cbn [raised yielded concat]. now rewrite <- !app_assoc.
Qed.

Lemma observation_stream_failing
    (lat lon : float) (start end_ : value) (n : Z) (l : log)
    (link : value) (params' : dict)
    (good : list string) (featuress : list (list dict))
    (s : string) (rest : list string)
    (ys : list value) (e : exn) :
  stations_listed lat lon l link (good ++ s :: rest) ->
  normalize_timestamps (stations_observations_params start end_)
  = inr params' ->
  Forall2 (station_answers params') good featuress ->
  (n <= 0 \/ Z.of_nat (length good) < n)%Z ->
  (forall l0,
     station_observations (stations_observations_params start end_)
                          (VStr s) l0
     = (Stream ys (Some e), (l0 ++ [observation_request params' s])%list)) ->
  get_observations_by_lat_lon lat lon start end_ n l
  = (Stream (concat (map records featuress) ++ ys) (Some e),
     (l ++ [(VStr ("/points/" ++ rounded_point lat lon), DEFAULT_END_POINT);
            (link, DEFAULT_END_POINT)]
        ++ map (observation_request params') good
        ++ [observation_request params' s])%list).
Proof.
  intros Hlisted Hn Hall Hbound Hbad. unfold get_observations_by_lat_lon.
  rewrite (observation_stations_listed _ _ _ _ _ Hlisted).
  rewrite map_app. cbn [map].
  rewrite (stations_loop_failing start end_ params' n good featuress
             (VStr s) (map VStr rest) ys e _ Hn Hall Hbad 0) by (simpl; lia).
  now rewrite <- !app_assoc.
Qed.

(** X15.  A station whose observation request fails ends the stream there:
    the records of the stations before it have been yielded, the exception
    of the transport is raised in place of the next record, and no request is
    issued for any later station. *)
Theorem stream_stops_at_failed_fetch
    (lat lon : float) (start end_ : value) (n : Z) (l : log)
    (link : value) (params' : dict)
    (good : list string) (featuress : list (list dict))
    (s : string) (rest : list string) (e : exn) :
  stations_listed lat lon l link (good ++ s :: rest) ->
  normalize_timestamps (stations_observations_params start end_)
  = inr params' ->
  Forall2 (station_answers params') good featuress ->
  (n <= 0 \/ Z.of_nat (length good) < n)%Z ->
  station_id_of s <> EmptyString ->
  (forall l0, transport l0 (observation_request params' s) = inl e) ->
  get_observations_by_lat_lon lat lon start end_ n l
  = (Stream (concat (map records featuress)) (Some e),
     (l ++ [(VStr ("/points/" ++ rounded_point lat lon), DEFAULT_END_POINT);
            (link, DEFAULT_END_POINT)]
        ++ map (observation_request params') good
        ++ [observation_request params' s])%list).
Proof.
  intros Hlisted Hn Hall Hbound Hid Ht.
  rewrite (observation_stream_failing lat lon start end_ n l link params'
             good featuress s rest [] e Hlisted Hn Hall Hbound).
  - now rewrite app_nil_r.
  - intros l0. rewrite (station_observations_run _ _ _ _ _ Hn Hid).
    rewrite Ht. unfold features_of. cbn [bindR].
    destruct (stations_observations_params start end_); reflexivity.
Qed.

(** X16.  A station whose answer is an object without ['features'] never
    gives a silent empty result: the stream stops there with an error, which
    is the [KeyError] of the subscript when neither [start] nor [end] was
    given, and the exception carrying the document when a time window was
    given. *)
Theorem stream_stops_at_missing_features
    (lat lon : float) (start end_ : value) (n : Z) (l : log)
    (link : value) (params' : dict)
    (good : list string) (featuress : list (list dict))
    (s : string) (rest : list string) (d : dict) :
  stations_listed lat lon l link (good ++ s :: rest) ->
  normalize_timestamps (stations_observations_params start end_)
  = inr params' ->
  Forall2 (station_answers params') good featuress ->
  (n <= 0 \/ Z.of_nat (length good) < n)%Z ->
  station_id_of s <> EmptyString ->
  (forall l0, transport l0 (observation_request params' s) = inr (VDict d)) ->
  dict_get "features" d = None ->
  get_observations_by_lat_lon lat lon start end_ n l
  = (Stream (concat (map records featuress))
            (Some (match stations_observations_params start end_ with
                   | [] => KeyError "features"
                   | _ => Exception (VDict d)
                   end)),
     (l ++ [(VStr ("/points/" ++ rounded_point lat lon), DEFAULT_END_POINT);
            (link, DEFAULT_END_POINT)]
        ++ map (observation_request params') good
        ++ [observation_request params' s])%list).
Proof.
  intros Hlisted Hn Hall Hbound Hid Ht Hf.
  rewrite (observation_stream_failing lat lon start end_ n l link params'
             good featuress s rest []
             (match stations_observations_params start end_ with
              | [] => KeyError "features"
              | _ => Exception (VDict d)
              end) Hlisted Hn Hall Hbound).
  - now rewrite app_nil_r.
  - intros l0. rewrite (station_observations_run _ _ _ _ _ Hn Hid).
    rewrite Ht.
    destruct (stations_observations_params start end_);
      unfold features_of, py_in, py_getitem, dict_in; cbn [bindR];
      rewrite Hf; reflexivity.
Qed.

Lemma yield_properties_until (features : list dict) (bad : value)
    (more : list value) :
  (forall d, bad <> VDict d) ->
  yield_properties (map VDict features ++ bad :: more)
  = Stream (records features) (Some AttributeError).
Proof.
  intros Hbad. induction features as [|d features IH]; simpl.
  - destruct bad; try reflexivity. now destruct (Hbad entries).
  - rewrite IH. simpl. destruct (dict_get "properties" d); reflexivity.
Qed.

(** X17.  A feature that is not an object ends the stream with
    [AttributeError] after the records of the features before it, those of
    the same station included, have been yielded; the features after it and
    the later stations are not reached. *)
Theorem stream_stops_at_malformed_feature
    (lat lon : float) (start end_ : value) (n : Z) (l : log)
    (link : value) (params' : dict)
    (good : list string) (featuress : list (list dict))
    (s : string) (rest : list string) (d : dict)
    (features : list dict) (bad : value) (more : list value) :
  stations_listed lat lon l link (good ++ s :: rest) ->
  normalize_timestamps (stations_observations_params start end_)
  = inr params' ->
  Forall2 (station_answers params') good featuress ->
  (n <= 0 \/ Z.of_nat (length good) < n)%Z ->
  station_id_of s <> EmptyString ->
  (forall l0, transport l0 (observation_request params' s) = inr (VDict d)) ->
  dict_get "features" d = Some (VList (map VDict features ++ bad :: more)) ->
  (forall d', bad <> VDict d') ->
  get_observations_by_lat_lon lat lon start end_ n l
  = (Stream (concat (map records featuress) ++ records features)
            (Some AttributeError),
     (l ++ [(VStr ("/points/" ++ rounded_point lat lon), DEFAULT_END_POINT);
            (link, DEFAULT_END_POINT)]
        ++ map (observation_request params') good
        ++ [observation_request params' s])%list).
Proof.
  intros Hlisted Hn Hall Hbound Hid Ht Hf Hbad.
  apply (observation_stream_failing lat lon start end_ n l link params'
           good featuress s rest (records features) AttributeError
           Hlisted Hn Hall Hbound).
  intros l0. rewrite (station_observations_run _ _ _ _ _ Hn Hid).
  rewrite Ht. rewrite <- (yield_properties_until features bad more Hbad).
  destruct (stations_observations_params start end_);
    unfold features_of, py_in, py_getitem, dict_in; cbn [bindR];
    rewrite Hf; reflexivity.
Qed.

End StreamFailures.

(** ** The station identifier *)

Lemma split_not_nil (sep : ascii) (s : string) : split sep s <> [].
Proof.
  destruct s as [|c s]; simpl; [discriminate|].
  destruct (Ascii.eqb c sep); [discriminate|].
  destruct (split sep s); discriminate.
Qed.

Lemma split_app (sep : ascii) (p r : string) :
  split sep (p ++ String sep r) = (split sep p ++ split sep r)%list.
Proof.
  induction p as [|c p IH]; simpl.
  - now rewrite Ascii.eqb_refl.
  - destruct (Ascii.eqb c sep); [now rewrite IH|].
    rewrite IH. pose proof (split_not_nil sep p) as Hp.
    destruct (split sep p); [contradiction | reflexivity].
Qed.

Lemma split_slash_free (s : string) :
  slash_free s = true -> split "/"%char s = [s].
Proof.
  induction s as [|c s IH]; simpl; [reflexivity|].
  destruct (Ascii.eqb c "/"%char); simpl; [discriminate|].
  intros H. now rewrite IH.
Qed.

Lemma split_parts_slash_free (s : string) :
  Forall (fun part => slash_free part = true) (split "/"%char s).
Proof.
  induction s as [|c s IH]; simpl.
  - now constructor.
  - destruct (Ascii.eqb c "/"%char) eqn:E; [now constructor|].
    pose proof (split_not_nil "/"%char s) as Hs.
    destruct (split "/"%char s) as [|h t]; [contradiction|].
    inversion IH; subst. constructor; [|assumption]. simpl. now rewrite E.
Qed.

(** X18.  The station identifier is the text after the last slash of the
    station address: for any prefix and any slash-free [id], the address
    [prefix/id] has the identifier [id]; an address with no slash is its own
    identifier, an address that ends in a slash has the empty identifier, and
    the identifier of any address has no slash. *)
Theorem station_id_after_last_slash :
  (forall prefix id,
     slash_free id = true ->
     split_last (VStr (prefix ++ "/" ++ id)) = inr id)
  /\ (forall s, slash_free s = true -> split_last (VStr s) = inr s)
  /\ (forall prefix, split_last (VStr (prefix ++ "/")) = inr EmptyString)
  /\ (forall s, slash_free (station_id_of s) = true).
Proof.
  split; [|split; [|split]].
  - intros prefix id Hid. unfold split_last. f_equal.
    change (prefix ++ "/" ++ id) with (prefix ++ String "/"%char id).
    rewrite split_app, (split_slash_free id Hid). apply last_last.
  - intros s Hs. unfold split_last. now rewrite (split_slash_free s Hs).
  - intros prefix. unfold split_last. f_equal.
    change (prefix ++ "/") with (prefix ++ String "/"%char EmptyString).
    rewrite split_app. apply last_last.
  - intros s. unfold station_id_of.
    pose proof (split_parts_slash_free s) as Hall.
    pose proof (split_not_nil "/"%char s) as Hne.
    induction Hall as [|part parts Hpart Hall IH]; [contradiction|].
    destruct parts as [|part' parts']; [exact Hpart|].
    apply IH. discriminate.
Qed.

(** ** The further statements on the sample worlds *)

Section FurtherOnTheSample.

Import Sample.

#[local] Existing Instance Sample.builtins.
#[local] Existing Instance Sample.util.
#[local] Existing Instance Sample.geocoders.

Lemma resolved_coordinate_sound_witness :
  exists z,
    by_zipcode "10001" = inr z
    /\ zip_lat z = Some 40.75%float /\ zip_lng z = Some (-73.99)%float
    /\ Some (ZipResult (Some 40.75%float, Some (-73.99)%float))
       = Some (ZipResult z).
Proof.
  assert (H : get_lat_lon_by_postalcode_country "10001" "US" true
              = inr (40.75%float, (-73.99)%float,
                     Some (ZipResult (Some 40.75%float,
                                      Some (-73.99)%float))))
    by reflexivity.
  exact (resolved_coordinate_sound "10001" "US" true _ _ _ H).
Defined.

Lemma invalid_postal_code_no_request_witness :
  get_forecasts "00000" "US" (VStr "grid") false []
  = (inl (InvalidZipCodeError "Invalid ZIP Code"), [])
  /\ get_forecasts "75001" "FR" (VStr "grid") false []
     = (inl (InvalidZipCodeError "Invalid ZIP Code"), []).
Proof.
  assert (Hus : no_coordinate "00000" "US").
  { exists (None, None). split; [reflexivity | now left]. }
  assert (Hfr : no_coordinate "75001" "FR").
  { exists (PrimFloat.nan, PrimFloat.nan). split; [reflexivity | now left]. }
  split.
  - exact (proj1 (invalid_postal_code_no_request "00000" "US" Hus)
                 (VStr "grid") false []).
  - exact (proj1 (invalid_postal_code_no_request "75001" "FR" Hfr)
                 (VStr "grid") false []).
Defined.

Lemma unsupported_type_no_request_witness :
  points_forecast 40.75%float (-73.99)%float
                  (VList [VStr "grid"; VStr "daily"]) []
  = (inl AssertionError, []).
Proof.
  assert (H : forallb supported (as_list (VList [VStr "grid"; VStr "daily"]))
              = false) by reflexivity.
  exact (proj1 (unsupported_type_no_request _ H)
               40.75%float (-73.99)%float []).
Defined.

Lemma first_validation_failure_witness :
  get_forecasts "60601" "US" (VList [VNone; VStr "hourly"; VStr "grid"])
                false []
  = (inl (Exception properties_message),
     [points_request "41.88,-87.62";
      (VStr (chicago ++ "/forecast"), DEFAULT_END_POINT);
      (VStr (chicago ++ "/forecast/hourly"), DEFAULT_END_POINT);
      (VStr chicago, DEFAULT_END_POINT)]).
Proof.
  assert (Hgeo : get_lat_lon_by_postalcode_country "60601" "US" false
                 = inr (41.88%float, (-87.62)%float, None)) by reflexivity.
  assert (Hfetch :
    points_forecast 41.88%float (-87.62)%float
      (VList (as_list (VList [VNone; VStr "hourly"; VStr "grid"]))) []
    = (inr ([VDict [("properties", VDict [("periods", VList [])])]]
            ++ VDict [("title", VStr "Unexpected")]
               :: [VDict unavailable])%list,
       [points_request "41.88,-87.62";
        (VStr (chicago ++ "/forecast"), DEFAULT_END_POINT);
        (VStr (chicago ++ "/forecast/hourly"), DEFAULT_END_POINT);
        (VStr chicago, DEFAULT_END_POINT)])) by reflexivity.
  refine (first_validation_failure
            "60601" "US" (VList [VNone; VStr "hourly"; VStr "grid"]) false
            [] _ 41.88%float (-87.62)%float None
            [VNone] [VStr "grid"] _ _ (VStr "hourly") _ _
            Hgeo eq_refl Hfetch eq_refl _ eq_refl).
  intros dtype res [H|[]]. injection H as <- <-. split; reflexivity.
Defined.

Lemma single_forecast_outcome_witness :
  get_forecasts "10001" "US" (VStr "grid") false []
  = (inr ([VDict [("temperature", VDict [])]], None),
     [points_request "40.75,-73.99"; (VStr gridpoint, DEFAULT_END_POINT)]).
Proof.
  assert (Hgeo : get_lat_lon_by_postalcode_country "10001" "US" false
                 = inr (40.75%float, (-73.99)%float, None)) by reflexivity.
  assert (Hfetch :
    points_forecast 40.75%float (-73.99)%float (VList [VStr "grid"]) []
    = (inr [VDict [("properties", VDict [("temperature", VDict [])])]],
       [points_request "40.75,-73.99";
        (VStr gridpoint, DEFAULT_END_POINT)])) by reflexivity.
  exact (proj2 (single_forecast_outcome
                  "10001" "US" (VStr "grid") (VStr "grid") false [] _
                  40.75%float (-73.99)%float None _
                  Hgeo eq_refl Hfetch eq_refl)
               [("temperature", VDict [])] eq_refl).
Defined.

Lemma normalization_keeps_other_parameters_witness :
  map fst [("start", VStr "2020-01-01T00:00:00Z"); ("limit", VInt 5);
           ("end", VStr "2020-01-01T23:59:59Z")]
  = map fst [("start", VStr "2020-01-01"); ("limit", VInt 5);
             ("end", VStr "2020-01-01")]
  /\ forall k, k <> "start" -> k <> "end" ->
       dict_get k [("start", VStr "2020-01-01T00:00:00Z"); ("limit", VInt 5);
                   ("end", VStr "2020-01-01T23:59:59Z")]
       = dict_get k [("start", VStr "2020-01-01"); ("limit", VInt 5);
                     ("end", VStr "2020-01-01")].
Proof.
  exact (normalization_keeps_other_parameters
           [("start", VStr "2020-01-01"); ("limit", VInt 5);
            ("end", VStr "2020-01-01")]
           [("start", VStr "2020-01-01T00:00:00Z"); ("limit", VInt 5);
            ("end", VStr "2020-01-01T23:59:59Z")] eq_refl).
Defined.

Lemma pad_timestamp_complete_and_stable_witness :
  20 <= String.length (pad_timestamp "T23:59:59Z" "2020-01-01 12:00")
  /\ pad_timestamp "T00:00:00Z" (pad_timestamp "T23:59:59Z" "2020-01-01 12:00")
     = pad_timestamp "T23:59:59Z" "2020-01-01 12:00".
Proof.
  destruct (proj1 (pad_timestamp_complete_and_stable "T23:59:59Z" eq_refl)
                  "2020-01-01 12:00") as [Hlen Hstable].
  - simpl. lia.
  - split; [exact Hlen | exact (Hstable "T00:00:00Z")].
Defined.

Lemma stations_observations_fails_early_witness :
  stations_observations (VStr "") [("current", VBool true)] []
  = (inl (Exception (VStr "'station_id' is required.")), [])
  /\ stations_observations
       (VStr "KNYC") [("start", VStr "yesterday"); ("current", VBool true)] []
     = (inl (ExternalError "InvalidTimestampError"), []).
Proof.
  split.
  - exact (proj1 (stations_observations_fails_early
                    (VStr "") [("current", VBool true)] []) eq_refl).
  - exact (proj1 (proj2 (stations_observations_fails_early
                    (VStr "KNYC")
                    [("start", VStr "yesterday"); ("current", VBool true)] [])
                    eq_refl eq_refl)
                 "yesterday" _ eq_refl eq_refl).
Defined.

Lemma query_string_needs_two_parameters_witness :
  snd (stations_observations (VStr "KNYC") [("start", VStr "2020-01-01")] [])
  = [(VStr "/stations/KNYC/observations", DEFAULT_END_POINT)]
  /\ snd (stations_observations (VStr "KNYC") day_params [])
     = [(VStr ("/stations/KNYC/observations" ++ day_query),
         DEFAULT_END_POINT)].
Proof.
  split.
  - exact (proj1 (query_string_needs_two_parameters
                    (VStr "KNYC") [("start", VStr "2020-01-01")]
                    [("start", VStr "2020-01-01T00:00:00Z")] []
                    eq_refl eq_refl eq_refl eq_refl) eq_refl).
  - refine (proj2 (query_string_needs_two_parameters
                     (VStr "KNYC") day_params day_params' []
                     eq_refl eq_refl eq_refl eq_refl) _).
    simpl. lia.
Defined.

Lemma stations_sends_station_id_as_id_witness :
  exists sent,
    stations [("station_id", VStr "KNYC"); ("limit", VInt 1)] []
    = make_get_request (VStr ("/stations?" ++ urlencode sent))
                       DEFAULT_END_POINT []
    /\ dict_get "station_id" sent = None
    /\ dict_get "id" sent = Some (VStr "KNYC")
    /\ forall k, k <> "id" -> k <> "station_id" ->
         dict_get k sent
         = dict_get k [("station_id", VStr "KNYC"); ("limit", VInt 1)].
Proof.
  exact (proj2 (proj2 (stations_sends_station_id_as_id
                         [("station_id", VStr "KNYC"); ("limit", VInt 1)] []))
               (VStr "KNYC") eq_refl).
Defined.

Lemma products_types_dispatch_witness :
  products_types [("locations", VBool false); ("location_id", VStr "OKX")] []
  = (inl (Exception (VStr "Error: Missing type id (type_id=None)")), [])
  /\ products_types [("type_id", VStr "AFD"); ("location_id", VStr "OKX")] []
     = make_get_request (VStr "/products/types/AFD") DEFAULT_END_POINT [].
Proof.
  split.
  - exact (proj1 (products_types_dispatch
                    [("locations", VBool false); ("location_id", VStr "OKX")]
                    []) eq_refl eq_refl).
  - exact (proj1 (proj2 (products_types_dispatch
                    [("type_id", VStr "AFD"); ("location_id", VStr "OKX")]
                    [])) eq_refl).
Defined.

End FurtherOnTheSample.

Section OnTheSecondSample.

Import Sample.

#[local] Existing Instance Sample.builtins.
#[local] Existing Instance Sample2.util.

Lemma forecast_link_always_read_witness :
  points_forecast 41.88%float (-87.62)%float (VList [VStr "grid"]) []
  = (inl (KeyError "forecast"), [points_request "41.88,-87.62"]).
Proof.
  refine (forecast_link_always_read
            41.88%float (-87.62)%float (VStr "grid") [] []
            [("properties",
              VDict [("forecastGridData", VStr chicago);
                     ("observationStations", VStr (chicago ++ "/stations"))])]
            [("forecastGridData", VStr chicago);
             ("observationStations", VStr (chicago ++ "/stations"))]
            _ _ _ _);
    reflexivity.
Defined.

Lemma second_sample_answers (s : string) (features : list dict) :
  station_id_of s <> EmptyString ->
  transport [] (observation_request [] s)
  = inr (VDict [("features", VList (map VDict features))]) ->
  station_answers [] s features.
Proof.
  intros Hid Ht. split; [exact Hid|].
  exists [("features", VList (map VDict features))].
  split; [reflexivity|]. intros l. exact Ht.
Qed.

Lemma stream_stops_at_failed_fetch_witness :
  get_observations_by_lat_lon 41.88%float (-87.62)%float VNone VNone (-1) []
  = (Stream [VDict [("temperature", VInt 10)]]
            (Some (ExternalError "Not Found")),
     [points_request "41.88,-87.62";
      (VStr (chicago ++ "/stations"), DEFAULT_END_POINT);
      (VStr "/stations/KORD/observations", DEFAULT_END_POINT);
      (VStr "/stations/KMDW/observations", DEFAULT_END_POINT)]).
Proof.
  refine (stream_stops_at_failed_fetch
           41.88%float (-87.62)%float VNone VNone (-1) []
           (VStr (chicago ++ "/stations")) []
           ["https://api.weather.gov/stations/KORD"] [Sample2.kord_features]
           "https://api.weather.gov/stations/KMDW"
           ["https://api.weather.gov/stations/KPWK"]
           (ExternalError "Not Found") _ _ _ _ _ _).
  - unfold stations_listed. do 3 eexists.
    split; [reflexivity|]. split; [reflexivity|]. split; [reflexivity|].
    split; reflexivity.
  - reflexivity.
  - constructor; [|constructor].
    apply second_sample_answers; [discriminate | reflexivity].
  - left. lia.
  - discriminate.
  - intros l0. reflexivity.
Defined.

Lemma stream_stops_at_missing_features_witness :
  get_observations_by_lat_lon 40.75%float (-73.99)%float VNone VNone 0 []
  = (Stream (records knyc_features) (Some (KeyError "features")),
     [points_request "40.75,-73.99";
      (VStr "/gridpoints/OKX/stations", DEFAULT_END_POINT);
      (VStr "/stations/KNYC/observations", DEFAULT_END_POINT);
      (VStr "/stations/KJFK/observations", DEFAULT_END_POINT)])
  /\ get_observations_by_lat_lon
       40.75%float (-73.99)%float
       (VStr "2020-01-01") (VStr "2020-01-01") 2 []
     = (Stream (records knyc_features)
               (Some (Exception (VDict Sample2.kjfk_answer))),
        [points_request "40.75,-73.99";
         (VStr "/gridpoints/OKX/stations", DEFAULT_END_POINT);
         (VStr ("/stations/KNYC/observations" ++ day_query),
          DEFAULT_END_POINT);
         (VStr ("/stations/KJFK/observations" ++ day_query),
          DEFAULT_END_POINT)]).
Proof.
  assert (Hlisted : stations_listed 40.75%float (-73.99)%float []
                      (VStr "/gridpoints/OKX/stations")
                      (["https://api.weather.gov/stations/KNYC"]
                       ++ "https://api.weather.gov/stations/KJFK"
                          :: ["https://api.weather.gov/stations/KLGA"])%list).
  { unfold stations_listed. do 3 eexists.
    split; [reflexivity|]. split; [reflexivity|]. split; [reflexivity|].
    split; reflexivity. }
  split.
  - refine (stream_stops_at_missing_features
             40.75%float (-73.99)%float VNone VNone 0 []
             (VStr "/gridpoints/OKX/stations") []
             ["https://api.weather.gov/stations/KNYC"] [knyc_features]
             "https://api.weather.gov/stations/KJFK"
             ["https://api.weather.gov/stations/KLGA"]
             Sample2.kjfk_answer Hlisted _ _ _ _ _ _).
    + reflexivity.
    + constructor; [|constructor].
      apply second_sample_answers; [discriminate | reflexivity].
    + left. lia.
    + discriminate.
    + intros l0. reflexivity.
    + reflexivity.
  - refine (stream_stops_at_missing_features
             40.75%float (-73.99)%float
             (VStr "2020-01-01") (VStr "2020-01-01") 2 []
             (VStr "/gridpoints/OKX/stations") day_params'
             ["https://api.weather.gov/stations/KNYC"] [knyc_features]
             "https://api.weather.gov/stations/KJFK"
             ["https://api.weather.gov/stations/KLGA"]
             Sample2.kjfk_answer Hlisted _ _ _ _ _ _).
    + reflexivity.
    + constructor; [|constructor]. split; [discriminate|].
      exists [("features", VList (map VDict knyc_features))].
      split; [reflexivity | intros l0; reflexivity].
    + right. simpl. lia.
    + discriminate.
    + intros l0. reflexivity.
    + reflexivity.
Defined.

Lemma stream_stops_at_malformed_feature_witness :
  get_observations_by_lat_lon 25.77%float (-80.19)%float VNone VNone 1 []
  = (Stream [VDict [("temperature", VInt 30)]; VNone] (Some AttributeError),
     [points_request "25.77,-80.19";
      (VStr "/gridpoints/MFL/stations", DEFAULT_END_POINT);
      (VStr "/stations/KMIA/observations", DEFAULT_END_POINT)]).
Proof.
  refine (stream_stops_at_malformed_feature
           25.77%float (-80.19)%float VNone VNone 1 []
           (VStr "/gridpoints/MFL/stations") [] [] []
           "https://api.weather.gov/stations/KMIA"
           ["https://api.weather.gov/stations/KOPF"]
           Sample2.kmia_answer Sample2.kmia_features
           (VStr "not an object") [VDict [("properties", VInt 1)]] _ _ _ _ _ _ _ _).
  - unfold stations_listed. do 3 eexists.
    split; [reflexivity|]. split; [reflexivity|]. split; [reflexivity|].
    split; reflexivity.
  - reflexivity.
  - constructor.
  - right. simpl. lia.
  - discriminate.
  - intros l0. reflexivity.
  - reflexivity.
  - intros d'. discriminate.
Defined.

End OnTheSecondSample.

(** ** On the third sample world *)

Section OnTheThirdSample.

Import Sample.

#[local] Existing Instance Sample.builtins.
#[local] Existing Instance Sample3.util.

Lemma points_forecast_requests_witness :
  points_forecast 40.75%float (-73.99)%float (VList [VStr "grid"; VNone]) []
  = (inr [VDict [("properties", VDict [("temperature", VDict [])])];
          VDict [("properties",
                  VDict [("periods",
                          VList [VDict [("name", VStr "Tonight")]])])]],
     [points_request "40.75,-73.99";
      (VStr gridpoint, DEFAULT_END_POINT);
      (VStr (gridpoint ++ "/forecast"), DEFAULT_END_POINT)])
  /\ points_forecast 40.75%float (-73.99)%float
                     (VList [VStr "grid"; VStr "hourly"; VNone]) []
     = (inl (ExternalError "Service Unavailable"),
        [points_request "40.75,-73.99";
         (VStr gridpoint, DEFAULT_END_POINT);
         (VStr (gridpoint ++ "/forecast/hourly"), DEFAULT_END_POINT)]).
Proof.
  assert (Hpoints : transport []
                      (VStr ("/points/" ++ float_str 40.75%float ++ ","
                             ++ float_str (-73.99)%float), DEFAULT_END_POINT)
                    = inr new_york_points) by reflexivity.
  split.
  - refine (proj1 (points_forecast_requests
                     40.75%float (-73.99)%float (VList [VStr "grid"; VNone])
                     [] _ _
                     (VStr (gridpoint ++ "/forecast"))
                     (VStr (gridpoint ++ "/forecast/hourly"))
                     (VStr gridpoint)
                     eq_refl Hpoints eq_refl eq_refl eq_refl eq_refl)
                  _ _).
    split; [reflexivity|]. split; [reflexivity|]. exact I.
  - refine (proj2 (points_forecast_requests
                     40.75%float (-73.99)%float
                     (VList [VStr "grid"; VStr "hourly"; VNone])
                     [] _ _
                     (VStr (gridpoint ++ "/forecast"))
                     (VStr (gridpoint ++ "/forecast/hourly"))
                     (VStr gridpoint)
                     eq_refl Hpoints eq_refl eq_refl eq_refl eq_refl)
                  [VStr "grid"] (VStr "hourly") [VNone]
                  [VDict [("properties", VDict [("temperature", VDict [])])]]
                  _ eq_refl _ _).
    + split; [reflexivity | exact I].
    + reflexivity.
Defined.

End OnTheThirdSample.
